(** * Common_Time: timeframe store, shared-interval search and legacy script

    A shallow embedding of the two Python sources of the repository:

    - [src/src/timesync.py] (module [TimeSync] below): the dictionary
      [TIMEFRAMES], [add_timeframe], [find_shared_timeframe],
      [remove_timeframe], [reset] and the [find]/[run]/[sync] branch of
      [main]; then [print_help], [list_timeframes] and a whole turn of the
      loop of [main];
    - [src/common_time.py] (module [CommonTime] below): the lists
      [startTimes] and [endTimes], [add], [clear], [run] and [vis].

    Conventions of the embedding.  A [datetime] is the number of minutes
    since a fixed epoch, a [timedelta] a number of minutes.  A function that
    prints returns the list of its [print] arguments, one element per call.
    A call of [input] is an argument of the function, [response]: the line
    the user types.  A Python exception is an [outcome] of [Raise]. *)

From Stdlib Require Import ZArith List String Ascii Bool Lia DecimalString.
From Stdlib Require Import Permutation.
From Stdlib Require DecimalPos DecimalZ.
From Equations Require Import Equations.
Import ListNotations.

Local Open Scope string_scope.
Local Open Scope list_scope.
Local Open Scope Z_scope.

(** ** Python values shared by both scripts *)

Abbreviation datetime := Z (only parsing).
Abbreviation timedelta := Z (only parsing).

Inductive exn : Type :=
| IndexError
| AttributeError
| ValueError.

Inductive outcome (A : Type) : Type :=
| Return (a : A)
| Raise (e : exn).
Arguments Return {A} a.
Arguments Raise {A} e.

(** The characters the printed messages need and a string literal cannot
    hold directly. *)
Definition nl : string := String (ascii_of_nat 10) EmptyString.
Definition dq : string := String (ascii_of_nat 34) EmptyString.

(** [str(n)] for an integer, as an f-string formats it. *)
Definition str_of_int (n : Z) : string := NilZero.string_of_int (Z.to_int n).

(** [str.lower] on the ASCII range. *)
Definition lower_ascii (c : ascii) : ascii :=
  let n := nat_of_ascii c in
  if (Nat.leb 65 n && Nat.leb n 90)%bool then ascii_of_nat (n + 32) else c.

Fixpoint lower (s : string) : string :=
  match s with
  | EmptyString => EmptyString
  | String c s' => String (lower_ascii c) (lower s')
  end.

(** [mark * n] *)
Fixpoint rep (mark : string) (n : nat) : string :=
  match n with
  | O => EmptyString
  | S n' => mark ++ rep mark n'
  end.

(** [x in l] for a list of strings. *)
Definition str_in (x : string) (l : list string) : bool :=
  existsb (String.eqb x) l.

(** [response.lower() in ["y", "yes"]], the test of both prompts. *)
Definition confirmed (response : string) : bool :=
  str_in (lower response) ["y"; "yes"].

(** [x] is the latest (greatest) element of [l], and the earliest (least). *)
Definition latest (x : datetime) (l : list datetime) : Prop :=
  In x l /\ Forall (fun y => y <= x) l.

Definition earliest (x : datetime) (l : list datetime) : Prop :=
  In x l /\ Forall (fun y => x <= y) l.

(** ** A Python [dict] with [str] keys

    The entries are kept in insertion order, the order [dict.values] lists
    them in.  Assigning to a key that is present replaces the value in
    place; a new key goes to the end. *)
Module Dict.
Section Dict.
Context {V : Type}.

Definition t : Type := list (string * V).

Definition keys (d : t) : list string := map fst d.
Definition values (d : t) : list V := map snd d.
Definition len (d : t) : nat := List.length d.

(** [k in d.keys()] *)
Definition contains (k : string) (d : t) : bool := str_in k (keys d).

(** [d.get(k)] *)
Fixpoint get (k : string) (d : t) : option V :=
  match d with
  | [] => None
  | (k', v) :: d' => if String.eqb k k' then Some v else get k d'
  end.

(** [d[k] = v] *)
Fixpoint setitem (k : string) (v : V) (d : t) : t :=
  match d with
  | [] => [(k, v)]
  | (k', v') :: d' =>
      if String.eqb k k' then (k, v) :: d' else (k', v') :: setitem k v d'
  end.

(** [d.pop(k)] for a key that is present: the dictionary that remains. *)
Definition pop (k : string) (d : t) : t :=
  filter (fun kv => negb (String.eqb k (fst kv))) d.

(** [d.clear()] *)
Definition clear (d : t) : t := [].

(** The keys of a dictionary are pairwise distinct. *)
Definition wf (d : t) : Prop := NoDup (keys d).

End Dict.
Arguments t V : clear implicits.
End Dict.

(** ** timesync.py *)
Module TimeSync.
Section Definitions.

(** The class [TimeFrame] of [timeframe.py] is not among the sources.  The
    functions of [timesync.py] use its constructor and [get_norm_times]
    only; both are parameters.  The constructor may raise. *)
Variable TimeFrame : Type.
Variable TimeFrame_init : string -> datetime -> datetime -> outcome TimeFrame.
Variable get_norm_times : TimeFrame -> datetime * datetime.

(** [datetime.strftime(d, DATETIME_FORMAT)], of Python's library. *)
Variable strftime : datetime -> string.

(** The global [TIMEFRAMES]. *)
Definition store : Type := Dict.t TimeFrame.

(** The normalized start times and end times of the stored timeframes. *)
Definition utc_starts (TIMEFRAMES : store) : list datetime :=
  map (fun timeframe => fst (get_norm_times timeframe)) (Dict.values TIMEFRAMES).

Definition utc_ends (TIMEFRAMES : store) : list datetime :=
  map (fun timeframe => snd (get_norm_times timeframe)) (Dict.values TIMEFRAMES).

Definition already_exists (timeframe_id : string) : string :=
  nl ++ "A timeframe with ID " ++ dq ++ timeframe_id ++ dq ++ " already exists.".

Definition action_aborted : string :=
  nl ++ "Action aborted. Timeframe entry was not overwritten.".

Definition timeframe_added : string := "Timeframe added." ++ nl.

(** The id that replaces [None]: [f"Timeframe {len(TIMEFRAMES) - 1}"]. *)
Definition default_id (TIMEFRAMES : store) : string :=
  "Timeframe " ++ str_of_int (Z.of_nat (Dict.len TIMEFRAMES) - 1).

(** The first statement of [add_timeframe]: [None] is replaced by the
    default id. *)
Definition effective_id (TIMEFRAMES : store) (timeframe_id : option string)
  : string :=
  match timeframe_id with
  | None => default_id TIMEFRAMES
  | Some id => id
  end.

(** [add_timeframe]; [response] is the answer to the overwrite prompt, read
    only when the id is present.  The result is the new [TIMEFRAMES], the
    printed lines and how the call ended. *)
Definition add_timeframe (TIMEFRAMES : store) (response : string)
    (timeframe_id : option string) (utc_offset : string)
    (start_time end_time : datetime)
  : store * list string * outcome unit :=
  let timeframe_id := effective_id TIMEFRAMES timeframe_id in
  let present := Dict.contains timeframe_id TIMEFRAMES in
  let printed := if present then [already_exists timeframe_id] else [] in
  if (present && negb (confirmed response))%bool
  then (TIMEFRAMES, printed ++ [action_aborted], Return tt)
  else
    match TimeFrame_init utc_offset start_time end_time with
    | Raise e => (TIMEFRAMES, printed, Raise e)
    | Return new_timeframe =>
        (Dict.setitem timeframe_id new_timeframe TIMEFRAMES,
         printed ++ [timeframe_added], Return tt)
    end.

(** The body of the [for] loop of [find_shared_timeframe]. *)
Definition scan (acc : datetime * datetime) (timeframe : TimeFrame)
  : datetime * datetime :=
  let '(latest_start_time, earliest_end_time) := acc in
  let '(norm_start, norm_end) := get_norm_times timeframe in
  let latest_start_time :=
    if norm_start >? latest_start_time then norm_start else latest_start_time in
  let earliest_end_time :=
    if norm_end <? earliest_end_time then norm_end else earliest_end_time in
  (latest_start_time, earliest_end_time).

(** [find_shared_timeframe]: [timeframes[0]] raises on an empty store. *)
Definition find_shared_timeframe (TIMEFRAMES : store)
  : outcome (option (datetime * datetime)) :=
  let timeframes := Dict.values TIMEFRAMES in
  match timeframes with
  | [] => Raise IndexError
  | first :: rest =>
      let '(latest_start_time, earliest_end_time) :=
        fold_left scan rest (get_norm_times first) in
      if latest_start_time >? earliest_end_time
      then Return None
      else Return (Some (latest_start_time, earliest_end_time))
  end.

Definition does_not_exist (timeframe_id : string) : string :=
  "remove: Timeframe with the ID " ++ dq ++ timeframe_id ++ dq
  ++ " does not exist." ++ nl.

Definition removed (timeframe_id : string) : string :=
  "Timeframe " ++ dq ++ timeframe_id ++ dq ++ " removed.".

(** [remove_timeframe]: the new [TIMEFRAMES], the printed line and the
    returned flag. *)
Definition remove_timeframe (TIMEFRAMES : store) (timeframe_id : string)
  : store * list string * bool :=
  if negb (Dict.contains timeframe_id TIMEFRAMES)
  then (TIMEFRAMES, [does_not_exist timeframe_id], false)
  else (Dict.pop timeframe_id TIMEFRAMES, [removed timeframe_id], true).

Definition reset_question : string :=
  "Are you sure you want to reset this session? This will clear all stored timeframes. [N/y]"
  ++ nl.

Definition removed_all : string := "Removed all timeframes." ++ nl.

(** [reset]; [response] is the answer to the confirmation prompt. *)
Definition reset (TIMEFRAMES : store) (response : string)
  : store * list string * bool :=
  if confirmed response
  then (Dict.clear TIMEFRAMES, [reset_question; removed_all], true)
  else (TIMEFRAMES, [reset_question], false).

(** How the [find]/[run]/[sync] branch of [main] ends: with [continue] on
    the guard, before [find_shared_timeframe] is called, or with the value
    of that call. *)
Inductive find_report : Type :=
| TooFewTimeframes
| Searched (shared_timeframe : outcome (option (datetime * datetime))).

Definition too_few (n : nat) : string :=
  nl ++ "find:" ++ str_of_int (Z.of_nat n) ++ " timeframe(s) provided."
  ++ nl ++ "      Provide at least 2 timeframes to find a shared timeframe.".

Definition shared_from (start_datetime end_datetime : string) : string :=
  "Shared timeframe from " ++ start_datetime ++ " to " ++ end_datetime
  ++ " UTC+00:00." ++ nl.

Definition no_shared : string :=
  "No shared timeframe exists among the timeframes provided." ++ nl.

(** The [find]/[run]/[sync] branch of the loop of [main]. *)
Definition main_find (TIMEFRAMES : store) : list string * find_report :=
  if Nat.leb (Dict.len TIMEFRAMES) 1
  then ([too_few (Dict.len TIMEFRAMES)], TooFewTimeframes)
  else
    let shared_timeframe := find_shared_timeframe TIMEFRAMES in
    match shared_timeframe with
    | Return (Some (start_datetime, end_datetime)) =>
        ([shared_from (strftime start_datetime) (strftime end_datetime)],
         Searched shared_timeframe)
    | Return None => ([no_shared], Searched shared_timeframe)
    | Raise e => ([], Searched shared_timeframe)
    end.

(** *** The rest of [timesync.py]: the help text, the listing and the loop
    of [main] *)

Definition HELP_DESCRIPTION : string :=
"CLI tool to find the longest shared timeframe among several timeframes across different timezones.

Commands:
    add <timeframe-id> <utc-offset> <start-time> <end-time>
            - add a timeframe.
    remove <timeframe-id>
            - remove a timeframe.

    see documentation for further usage details.

    reset   - clear all timeframes.

    run     - find the shared timeframe.
    ls      - list all the timeframes.
    vis     - visualize the timeframes.
            
    clear   - clears the screen.
    help    - view the help description.
    exit    - exit TimeSync.
".

(** [print_help] *)
Definition print_help (print_divider : bool) : list string :=
  [HELP_DESCRIPTION] ++ (if print_divider then [(rep "_" 80 ++ nl)%string] else []).

(** The functions of [utils.py], which is not among the sources, and of
    Python's library that [main] and [list_timeframes] call are parameters.
    A formatter returns its result or the text of the [ValueError] it
    raises; [strptime] returns [None] for its [ValueError]. *)
Inductive formatted : Type :=
| Formatted (text : string)
| Rejected (ve : string).

Variable construct_timeframe_table : store -> string.
Variable split : string -> list string.
Variable format_utc_offset : string -> formatted.
Variable format_time : string -> formatted.
Variable is_valid_offset : string -> bool * string.
Variable is_valid_datetime : string -> bool.
Variable strptime : string -> option datetime.

(** [list_timeframes] *)
Definition list_timeframes (TIMEFRAMES : store) : list string :=
  [construct_timeframe_table TIMEFRAMES].

(** What a turn of the loop of [main] shows: a printed line, or the screen
    cleared by [clear_screen]. *)
Inductive event : Type :=
| Print (line : string)
| ClearScreen.

(** How a turn of the loop ends: with the next turn, or with [break]. *)
Inductive control : Type :=
| Continue
| Break.

Definition add_count (found : nat) : string :=
  nl ++ "add: Expected 6 or 7 arguments but found "
  ++ str_of_int (Z.of_nat found - 1) ++ "."
  ++ nl ++ "     Required arguments: timeframe-id, utc-offset, start-date, start-time, end-date, end-time".

Definition incorrect_format (argument : string) : string :=
  nl ++ "add: Incorrect format of " ++ argument
  ++ " argument. Expected format: DD-MM-YY HH:MM." ++ nl.

Definition remove_count : string :=
  nl ++ "remove: Expected 1 argument " ++ dq ++ "timeframe-id" ++ dq
  ++ " but found 0 arguments.".

Definition exit_question : string :=
  "Are you sure you want to exit TimeSync? [N/y]".

(** The [add] branch after the count of the arguments: [end_date] is
    [command[3]] for six words and [command[5]] for seven, [end_clock] is
    [command[-1]]. *)
Definition main_add (TIMEFRAMES : store) (response : string)
    (timeframe_id utc_offset start_date start_clock end_date end_clock : string)
  : store * list string * outcome unit :=
  match format_utc_offset utc_offset with
  | Rejected ve => (TIMEFRAMES, [("utc-offset: " ++ ve ++ nl)%string], Return tt)
  | Formatted utc_offset =>
  match format_time start_clock with
  | Rejected ve => (TIMEFRAMES, [("start-time: " ++ ve ++ nl)%string], Return tt)
  | Formatted start_clock =>
  let start_time := (start_date ++ " " ++ start_clock)%string in
  match format_time end_clock with
  | Rejected ve => (TIMEFRAMES, [("end-time: " ++ ve ++ nl)%string], Return tt)
  | Formatted end_clock =>
  let end_time := (end_date ++ " " ++ end_clock)%string in
  let '(flag, error_message) := is_valid_offset utc_offset in
  if negb flag
  then (TIMEFRAMES, [(nl ++ "add: " ++ error_message ++ nl)%string], Return tt)
  else if negb (is_valid_datetime start_time)
  then (TIMEFRAMES, [incorrect_format "start-time"], Return tt)
  else if negb (is_valid_datetime end_time)
  then (TIMEFRAMES, [incorrect_format "end-time"], Return tt)
  else
    match strptime start_time with
    | None => (TIMEFRAMES, ["Illegal start-time argument."], Return tt)
    | Some start_time =>
    match strptime end_time with
    | None => (TIMEFRAMES, ["Illegal end-time argument."], Return tt)
    | Some end_time =>
        add_timeframe TIMEFRAMES response (Some timeframe_id) utc_offset
          start_time end_time
    end end
  end end end.

(** One turn of the loop of [main]: [line] is the command read, [response]
    the answer to the question the turn may ask. *)
Definition main_turn (TIMEFRAMES : store) (line response : string)
  : store * list event * outcome control :=
  if String.eqb line EmptyString then (TIMEFRAMES, [], Return Continue)
  else
    let command := split line in
    match command with
    | [] => (TIMEFRAMES, [], Raise IndexError)
    | action :: arguments =>
        let spacing := Print EmptyString in
        if String.eqb action "add" then
          match arguments with
          | [timeframe_id; utc_offset; start_date; start_clock; end_clock] =>
              let '(TIMEFRAMES', printed, ended) :=
                main_add TIMEFRAMES response timeframe_id utc_offset
                  start_date start_clock start_date end_clock in
              (TIMEFRAMES', spacing :: map Print printed,
               match ended with Return _ => Return Continue | Raise e => Raise e end)
          | [timeframe_id; utc_offset; start_date; start_clock; end_date; end_clock] =>
              let '(TIMEFRAMES', printed, ended) :=
                main_add TIMEFRAMES response timeframe_id utc_offset
                  start_date start_clock end_date end_clock in
              (TIMEFRAMES', spacing :: map Print printed,
               match ended with Return _ => Return Continue | Raise e => Raise e end)
          | _ =>
              (TIMEFRAMES, [spacing; Print (add_count (List.length command))],
               Return Continue)
          end
        else if str_in action ["find"; "run"; "sync"] then
          let '(printed, report) := main_find TIMEFRAMES in
          (TIMEFRAMES, spacing :: map Print printed,
           match report with
           | Searched (Raise e) => Raise e
           | _ => Return Continue
           end)
        else if String.eqb action "remove" then
          match arguments with
          | [] => (TIMEFRAMES, [spacing; Print remove_count], Return Continue)
          | timeframe_id :: _ =>
              let '(TIMEFRAMES', printed, _) :=
                remove_timeframe TIMEFRAMES timeframe_id in
              (TIMEFRAMES', spacing :: map Print printed, Return Continue)
          end
        else if String.eqb action "reset" then
          let '(TIMEFRAMES', printed, _) := reset TIMEFRAMES response in
          (TIMEFRAMES', spacing :: map Print printed, Return Continue)
        else if str_in action ["ls"; "list"] then
          (TIMEFRAMES, spacing :: map Print (list_timeframes TIMEFRAMES),
           Return Continue)
        else if String.eqb action "vis" then
          (TIMEFRAMES, [spacing], Return Continue)
        else if String.eqb action "clear" then
          (TIMEFRAMES, [spacing; ClearScreen], Return Continue)
        else if String.eqb action "help" then
          (TIMEFRAMES, spacing :: map Print (print_help false), Return Continue)
        else if str_in action ["X"; "exit"; "quit"] then
          (TIMEFRAMES, [spacing; Print exit_question],
           Return (if confirmed response then Break else Continue))
        else (TIMEFRAMES, [spacing; Print "Invalid command."], Return Continue)
    end.

End Definitions.

Arguments add_timeframe {TimeFrame} TimeFrame_init TIMEFRAMES response
  timeframe_id utc_offset start_time end_time.
Arguments default_id {TimeFrame} TIMEFRAMES.
Arguments effective_id {TimeFrame} TIMEFRAMES timeframe_id.
Arguments utc_starts {TimeFrame} get_norm_times TIMEFRAMES.
Arguments utc_ends {TimeFrame} get_norm_times TIMEFRAMES.
Arguments scan {TimeFrame} get_norm_times acc timeframe.
Arguments find_shared_timeframe {TimeFrame} get_norm_times TIMEFRAMES.
Arguments remove_timeframe {TimeFrame} TIMEFRAMES timeframe_id.
Arguments reset {TimeFrame} TIMEFRAMES response.
Arguments main_find {TimeFrame} get_norm_times strftime TIMEFRAMES.
Arguments list_timeframes {TimeFrame} construct_timeframe_table TIMEFRAMES.
Arguments main_add {TimeFrame} TimeFrame_init format_utc_offset format_time
  is_valid_offset is_valid_datetime strptime TIMEFRAMES response timeframe_id
  utc_offset start_date start_clock end_date end_clock.
Arguments main_turn {TimeFrame} TimeFrame_init get_norm_times strftime
  construct_timeframe_table split format_utc_offset format_time
  is_valid_offset is_valid_datetime strptime TIMEFRAMES line response.

(** The default id on a store of [i] timeframes. *)
Definition unnamed_id (i : nat) : string :=
  ("Timeframe " ++ str_of_int (Z.of_nat i - 1))%string.

(** Calls of [add_timeframe] without an id, one after the other; a call is
    the answer to the question it may ask, the offset and the two times. *)
Definition add_unnamed {TimeFrame : Type}
    (TimeFrame_init : string -> datetime -> datetime -> outcome TimeFrame)
    (TIMEFRAMES : store TimeFrame)
    (calls : list (string * string * datetime * datetime))
  : store TimeFrame :=
  fold_left
    (fun TIMEFRAMES call =>
       let '(response, utc_offset, start_time, end_time) := call in
       fst (fst (add_timeframe TimeFrame_init TIMEFRAMES response None
                   utc_offset start_time end_time)))
    calls TIMEFRAMES.

End TimeSync.

(** A stand-in for the class [TimeFrame] in the examples: a timeframe at
    offset +00:00, which is its own pair of normalized times. *)
Module Window.

Definition TimeFrame : Type := (datetime * datetime)%type.

Definition init (utc_offset : string) (start_time end_time : datetime)
  : outcome TimeFrame :=
  Return (start_time, end_time).

Definition get_norm_times (timeframe : TimeFrame) : datetime * datetime :=
  timeframe.

(** Minutes since the epoch, for the hour [h] and minute [m] of day 0. *)
Definition at_ (h m : Z) : datetime := 60 * h + m.

End Window.

(** ** common_time.py *)
Module CommonTime.

(** The globals [startTimes], [endTimes] and [limit_count]. *)
Record state : Type := mkState {
  startTimes : list datetime;
  endTimes : list datetime;
  limit_count : Z
}.

(** The variables of the loops of [vis]. *)
Record cursor : Type := mkCursor {
  output : string;
  reference_datetime : datetime;
  increment_counter : Z
}.

(** One turn of each [while] loop of [vis]: a character is written, the
    reference moves on by 30 minutes and the counter by one. *)
Definition tick (mark : string) (c : cursor) : cursor :=
  {| output := output c ++ mark;
     reference_datetime := reference_datetime c + 30;
     increment_counter := increment_counter c + 1 |}.

(** What the two kinds of loop of [vis] have left to go: minutes up to the
    bound, and turns up to 49. *)
Definition minutes_left (bound : datetime) (c : cursor) : nat :=
  Z.to_nat (bound - reference_datetime c).

Definition turns_left (c : cursor) : nat :=
  Z.to_nat (49 - increment_counter c).

Lemma minutes_left_tick mark bound c :
  reference_datetime c < bound ->
  (minutes_left bound (tick mark c) < minutes_left bound c)%nat.
Proof. unfold minutes_left, tick; cbn [reference_datetime]; lia. Qed.

Lemma turns_left_tick mark c :
  increment_counter c < 49 ->
  (turns_left (tick mark c) < turns_left c)%nat.
Proof. unfold turns_left, tick; cbn [increment_counter]; lia. Qed.

(** [while reference_datetime < bound: output += mark; ...] *)
Equations? advance (mark : string) (bound : datetime) (c : cursor) : cursor
  by wf (minutes_left bound c) lt :=
advance mark bound c with Z_lt_dec (reference_datetime c) bound := {
  | left _ := advance mark bound (tick mark c);
  | right _ := c }.
Proof. now apply minutes_left_tick. Qed.

(** [while increment_counter < 49: output += '|'; ...] *)
Equations? fill (c : cursor) : cursor by wf (turns_left c) lt :=
fill c with Z_lt_dec (increment_counter c) 49 := {
  | left _ := fill (tick "|" c);
  | right _ := c }.
Proof. now apply turns_left_tick. Qed.

(** The row [vis] builds for the timeframe [startTime]..[endTime], from the
    reference [origin] and the counter left by the rows before it. *)
Definition row (origin startTime endTime : datetime) (counter : Z) : cursor :=
  fill (advance " " endTime (advance "|" startTime
    {| output := EmptyString;
       reference_datetime := origin;
       increment_counter := counter |})).

Section Definitions.

(** Midnight of the day the script was started on: [date_today] parsed at
    00:00:00. *)
Variable date_today : datetime.

(** [convertToUTC] returns what the remote conversion service answers; the
    answer is a parameter. *)
Variable convertToUTC : string -> datetime -> datetime.

(** [d.strftime(format)], of Python's library. *)
Variable strftime : string -> datetime -> string.

Definition dt_format : string := "%d/%m/%y %H:%M:%S".

(** The hours [HH] and minutes [MM] of a time stamp are those of a time of
    day: 00..23 and 00..59. *)
Definition valid_stamp (time_stamp : Z * Z) : bool :=
  let '(HH, MM) := time_stamp in
  ((0 <=? HH) && (HH <=? 23) && (0 <=? MM) && (MM <=? 59))%bool.

(** The time [HH]:[MM]:00 of the day of [date_today]. *)
Definition local_time (time_stamp : Z * Z) : datetime :=
  let '(HH, MM) := time_stamp in
  date_today + 60 * HH + MM.

(** [datetime.strptime(f'{date_today} {HH}:{MM}:00', dt_format)] for the two
    digits [HH] and the two digits [MM] of a time stamp. *)
Definition strptime_today (time_stamp : Z * Z) : outcome datetime :=
  if valid_stamp time_stamp
  then Return (local_time time_stamp)
  else Raise ValueError.

(** [add], from the location, in upper case, and the two time stamps that
    its regular expressions extract from the command.  The lines [add] and
    [convertToUTC] print are left out. *)
Definition add (st : state) (location : string) (time_stamps : (Z * Z) * (Z * Z))
  : outcome state :=
  match strptime_today (fst time_stamps) with
  | Raise e => Raise e
  | Return start_datetime_object =>
      match strptime_today (snd time_stamps) with
      | Raise e => Raise e
      | Return end_datetime_object =>
          let startTimes' :=
            startTimes st ++ [convertToUTC location start_datetime_object] in
          let endTimes' :=
            if start_datetime_object <? end_datetime_object
            then endTimes st ++ [convertToUTC location end_datetime_object]
            else endTimes st
                 ++ [convertToUTC location (end_datetime_object + 1440)] in
          Return {| startTimes := startTimes';
                    endTimes := endTimes';
                    limit_count := limit_count st + 1 |}
      end
  end.

Definition clear (st : state) : state :=
  {| startTimes := []; endTimes := []; limit_count := 0 |}.

(** The first loop of [run], commented "Finding the latest start time". *)
Definition op_startTime (st : state) (first : datetime) : datetime :=
  fold_left (fun op_startTime item =>
               if op_startTime >? item then item else op_startTime)
            (startTimes st) first.

(** The second loop of [run], commented "Finding the earliest end time". *)
Definition op_endTime (st : state) (first : datetime) : datetime :=
  fold_left (fun op_endTime item =>
               if op_endTime <? item then item else op_endTime)
            (endTimes st) first.

Definition no_common : string :=
  nl ++ "No common time frame for the set limits." ++ nl.

(** [run].  In the branch of a common time frame [delta.hours] is read, an
    attribute a [timedelta] does not have: the call raises before it
    prints the result. *)
Definition run (st : state) : list string * outcome unit :=
  match startTimes st, endTimes st with
  | [], _ => ([], Raise IndexError)
  | s0 :: _, [] => ([strftime dt_format s0], Raise IndexError)
  | s0 :: _, e0 :: _ =>
      let printed := [strftime dt_format s0; strftime dt_format e0] in
      if op_startTime st s0 <? op_endTime st e0
      then (printed, Raise AttributeError)
      else (printed ++ [no_common], Return tt)
  end.

End Definitions.

(** The [for] loop of [vis] over the indices [ns]: the rows written so far
    and the counter are carried along. *)
Fixpoint vis_loop (st : state) (ns : list nat) (counter : Z)
    (rows : list string) : list string * outcome unit :=
  match ns with
  | [] => (rows, Return tt)
  | n :: ns' =>
      match nth_error (startTimes st) 0,
            nth_error (startTimes st) n,
            nth_error (endTimes st) n with
      | Some origin, Some startTime, Some endTime =>
          let c := row origin startTime endTime counter in
          vis_loop st ns' (increment_counter c) (rows ++ [output c])
      | _, _, _ => (rows, Raise IndexError)
      end
  end.

(** [vis]: the value of [output] of every row, each printed followed by a
    newline. *)
Definition vis (st : state) : list string * outcome unit :=
  vis_loop st (seq 0 (List.length (startTimes st))) 0 [].

(** The globals when the script starts. *)
Definition initial : state :=
  {| startTimes := []; endTimes := []; limit_count := 0 |}.

(** The states of the globals in a session: the commands that change them
    are [add], when it returns, and [clear]. *)
Inductive reachable (date_today : datetime)
    (convertToUTC : string -> datetime -> datetime) : state -> Prop :=
| reachable_initial : reachable date_today convertToUTC initial
| reachable_add st location time_stamps st' :
    reachable date_today convertToUTC st ->
    add date_today convertToUTC st location time_stamps = Return st' ->
    reachable date_today convertToUTC st'
| reachable_clear st :
    reachable date_today convertToUTC st ->
    reachable date_today convertToUTC (clear st).

(** The number of steps of half an hour, counted from [reference], that
    begin before [bound]: the turns of a loop of [advance]. *)
Definition half_hours (reference bound : datetime) : nat :=
  Z.to_nat ((bound - reference + 29) / 30).

(** A row without the bars that [fill] adds: a bar for each half hour from
    the origin that begins before the start, then a blank for each one
    after them that begins before the end. *)
Definition bare_row (origin startTime endTime : datetime) : string :=
  let bars := half_hours origin startTime in
  let blanks := half_hours (origin + 30 * Z.of_nat bars) endTime in
  rep "|" bars ++ rep " " blanks.

End CommonTime.

(** ** The visualization as the specification words it

    The origin is the least of all start times; a row has 48 marks, one for
    each half hour of 24 hours; the mark of a half hour is a blank when the
    half hour begins in the window, from the start up to but not including
    the end, and a bar otherwise. *)
Module VisSpec.

Definition origin (starts : list datetime) : datetime :=
  match starts with
  | [] => 0
  | first :: rest => fold_left Z.min rest first
  end.

Definition mark (origin startTime endTime : datetime) (k : nat) : string :=
  let bucket := origin + 30 * Z.of_nat k in
  if ((startTime <=? bucket) && (bucket <? endTime))%bool then " " else "|".

Definition row (origin startTime endTime : datetime) : string :=
  String.concat EmptyString (map (mark origin startTime endTime) (seq 0 48)).

Definition vis (st : CommonTime.state) : list string :=
  map (fun window => row (origin (CommonTime.startTimes st))
                         (fst window) (snd window))
      (combine (CommonTime.startTimes st) (CommonTime.endTimes st)).

End VisSpec.

(** ** Sample data *)
Module Samples.

(** Timeframes A and B of the specification: 09:00-17:00 and 10:00-18:00
    UTC. *)
Definition A : Window.TimeFrame := (Window.at_ 9 0, Window.at_ 17 0).
Definition B : Window.TimeFrame := (Window.at_ 10 0, Window.at_ 18 0).

(** Timeframes D and E of the specification, which do not overlap:
    00:00-04:00 and 05:00-09:00 UTC. *)
Definition D : Window.TimeFrame := (Window.at_ 0 0, Window.at_ 4 0).
Definition E : Window.TimeFrame := (Window.at_ 5 0, Window.at_ 9 0).

(** Two timeframes that touch: 00:00-01:00 and 01:00-02:00 UTC. *)
Definition F : Window.TimeFrame := (Window.at_ 0 0, Window.at_ 1 0).
Definition G : Window.TimeFrame := (Window.at_ 1 0, Window.at_ 2 0).

(** A conversion service for a location five hours behind UTC. *)
Definition five_behind (location : string) : timedelta := -300.
Definition convertToUTC (location : string) (local : datetime) : datetime :=
  local - five_behind location.



(** A formatter that writes a date and time as its number of minutes. *)
Definition minutes (d : datetime) : string := str_of_int d.

Definition empty_state : CommonTime.state :=
  {| CommonTime.startTimes := []; CommonTime.endTimes := [];
     CommonTime.limit_count := 0 |}.

(** A and B in the lists of the legacy script. *)
Definition AB_state : CommonTime.state :=
  {| CommonTime.startTimes := [Window.at_ 9 0; Window.at_ 10 0];
     CommonTime.endTimes := [Window.at_ 17 0; Window.at_ 18 0];
     CommonTime.limit_count := 2 |}.

(** 10:00-11:00 stored first, 09:00-10:00 second. *)
Definition late_first : CommonTime.state :=
  {| CommonTime.startTimes := [Window.at_ 10 0; Window.at_ 9 0];
     CommonTime.endTimes := [Window.at_ 11 0; Window.at_ 10 0];
     CommonTime.limit_count := 2 |}.

(** The store after three timeframes were added without an id and the
    first of them was removed. *)
Definition three_added_one_removed : TimeSync.store Window.TimeFrame :=
  let added TIMEFRAMES timeframe :=
    fst (fst (TimeSync.add_timeframe Window.init TIMEFRAMES "n" None "+00:00"
                (fst timeframe) (snd timeframe))) in
  let TIMEFRAMES := added (added (added [] A) B) D in
  fst (fst (TimeSync.remove_timeframe TIMEFRAMES "Timeframe -1")).

(** The state after the overnight window 22:00-06:00 was added at a
    location five hours behind UTC. *)
Definition overnight : CommonTime.state :=
  {| CommonTime.startTimes := [Window.at_ 27 0];
     CommonTime.endTimes := [Window.at_ 35 0];
     CommonTime.limit_count := 1 |}.

(** Two calls of [add_timeframe] without an id, for A and for B. *)
Definition two_calls : list (string * string * datetime * datetime) :=
  [("n", "+00:00", fst A, snd A); ("n", "+00:00", fst B, snd B)].

(** Stand-ins for the functions of [utils.py] and of Python's library that
    [main] calls: the words of a line between blanks; formatters that take
    every text as it is; checks that pass; a parser that takes the length
    of a text for its time; a table that is the number of timeframes. *)
Fixpoint words (line current : string) : list string :=
  match line with
  | EmptyString =>
      if String.eqb current EmptyString then [] else [current]
  | String c line' =>
      if Ascii.eqb c " "
      then if String.eqb current EmptyString then words line' EmptyString
           else current :: words line' EmptyString
      else words line' (current ++ String c EmptyString)
  end.

Definition split (line : string) : list string := words line EmptyString.
Definition as_it_is (text : string) : TimeSync.formatted := TimeSync.Formatted text.
Definition every_offset (utc_offset : string) : bool * string := (true, EmptyString).
Definition every_datetime (text : string) : bool := true.
Definition strptime (text : string) : option datetime :=
  Some (Z.of_nat (String.length text)).
Definition table (TIMEFRAMES : TimeSync.store Window.TimeFrame) : string :=
  str_of_int (Z.of_nat (Dict.len TIMEFRAMES)).

(** A turn of the loop of [main] with the stand-ins. *)
Definition main_turn :=
  TimeSync.main_turn Window.init Window.get_norm_times minutes table split
    as_it_is as_it_is every_offset every_datetime strptime.

End Samples.

(** * Properties *)

(** ** Strings and the confirmation test *)

Lemma str_in_In x l : str_in x l = true <-> In x l.
Proof.
  unfold str_in. rewrite existsb_exists. split.
  - intros (y & Hy & Heq). apply String.eqb_eq in Heq. now subst.
  - intros H. exists x. split; [assumption | apply String.eqb_refl].
Qed.

Lemma confirmed_iff response :
  confirmed response = true <-> lower response = "y" \/ lower response = "yes".
Proof.
  unfold confirmed. rewrite str_in_In. simpl. intuition congruence.
Qed.

(** ** The dictionary *)
Section DictFacts.
Context {V : Type}.
Implicit Types (d : Dict.t V) (k : string) (v : V).

Lemma contains_In k d : Dict.contains k d = true <-> In k (Dict.keys d).
Proof. apply str_in_In. Qed.

Lemma contains_cons k k' v d :
  Dict.contains k ((k', v) :: d) = (String.eqb k k' || Dict.contains k d)%bool.
Proof. reflexivity. Qed.

Lemma pop_absent k d : Dict.contains k d = false -> Dict.pop k d = d.
Proof.
  induction d as [| [k' v] d IH]; [reflexivity |].
  rewrite contains_cons. intros H. apply orb_false_elim in H as [Hk Hd].
  unfold Dict.pop in *. simpl. rewrite Hk. simpl. now rewrite IH.
Qed.

Lemma contains_pop k d : Dict.contains k (Dict.pop k d) = false.
Proof.
  induction d as [| [k' v] d IH]; [reflexivity |].
  unfold Dict.pop in *. simpl.
  destruct (String.eqb k k') eqn:E; simpl; [assumption |].
  rewrite contains_cons, E. exact IH.
Qed.

Lemma contains_pop_other k k' d :
  k <> k' -> Dict.contains k (Dict.pop k' d) = Dict.contains k d.
Proof.
  intros Hne. induction d as [| [k0 v] d IH]; [reflexivity |].
  unfold Dict.pop in *. simpl.
  destruct (String.eqb k' k0) eqn:E; simpl.
  - apply String.eqb_eq in E. subst k0. rewrite contains_cons.
    apply String.eqb_neq in Hne. now rewrite Hne.
  - rewrite !contains_cons. now rewrite IH.
Qed.

Lemma get_setitem k v d : Dict.get k (Dict.setitem k v d) = Some v.
Proof.
  induction d as [| [k' v'] d IH]; simpl.
  - now rewrite String.eqb_refl.
  - destruct (String.eqb k k') eqn:E; simpl.
    + now rewrite String.eqb_refl.
    + now rewrite E.
Qed.

Lemma get_setitem_other k k' v d :
  k <> k' -> Dict.get k (Dict.setitem k' v d) = Dict.get k d.
Proof.
  intros Hne. apply String.eqb_neq in Hne.
  induction d as [| [k0 v0] d IH]; simpl.
  - now rewrite Hne.
  - destruct (String.eqb k' k0) eqn:E; simpl.
    + apply String.eqb_eq in E. subst k0. now rewrite Hne.
    + now rewrite IH.
Qed.

Lemma keys_setitem_present k v d :
  Dict.contains k d = true -> Dict.keys (Dict.setitem k v d) = Dict.keys d.
Proof.
  induction d as [| [k' v'] d IH]; [discriminate |].
  rewrite contains_cons. simpl.
  destruct (String.eqb k k') eqn:E; simpl.
  - intros _. apply String.eqb_eq in E. now subst.
  - intros H. unfold Dict.keys in *. simpl. f_equal. now apply IH.
Qed.

Lemma keys_setitem_absent k v d :
  Dict.contains k d = false -> Dict.keys (Dict.setitem k v d) = Dict.keys d ++ [k].
Proof.
  induction d as [| [k' v'] d IH]; [reflexivity |].
  rewrite contains_cons. simpl. intros H.
  apply orb_false_elim in H as [Hk Hd]. rewrite Hk.
  unfold Dict.keys in *. simpl. f_equal. now apply IH.
Qed.

(** The three mutations keep the keys pairwise distinct. *)
Lemma wf_setitem k v d : Dict.wf d -> Dict.wf (Dict.setitem k v d).
Proof.
  unfold Dict.wf. intros Hd.
  destruct (Dict.contains k d) eqn:E.
  - now rewrite keys_setitem_present.
  - rewrite keys_setitem_absent by assumption.
    apply NoDup_app; [assumption | repeat constructor; intros [] |].
    intros x Hx [<- | []]. apply contains_In in Hx. congruence.
Qed.

Lemma wf_pop k d : Dict.wf d -> Dict.wf (Dict.pop k d).
Proof.
  unfold Dict.wf, Dict.pop, Dict.keys.
  induction d as [| [k' v] d IH]; simpl; [trivial |].
  intros Hd. inversion Hd as [| ? ? Hnotin Hd']; subst.
  destruct (String.eqb k k'); simpl; [now apply IH |].
  constructor; [| now apply IH].
  intros Hin. apply Hnotin. apply in_map_iff in Hin as (kv & Hk & Hkv).
  apply filter_In in Hkv as [Hkv _]. apply in_map_iff. now exists kv.
Qed.

(** On distinct keys [pop] takes out one entry, the one of the key. *)
Lemma len_pop_present k d :
  Dict.wf d -> Dict.contains k d = true ->
  S (Dict.len (Dict.pop k d)) = Dict.len d.
Proof.
  unfold Dict.wf, Dict.len. induction d as [| [k' v] d IH]; [discriminate |].
  intros Hd. inversion Hd as [| ? ? Hnotin Hd']; subst.
  rewrite contains_cons. unfold Dict.pop in *. simpl.
  destruct (String.eqb k k') eqn:E; simpl.
  - intros _. apply String.eqb_eq in E. subst k'.
    fold (Dict.pop k d). rewrite pop_absent; [reflexivity |].
    destruct (Dict.contains k d) eqn:Ek; [| reflexivity].
    apply contains_In in Ek. contradiction.
  - intros Hk. f_equal. now apply IH.
Qed.

Lemma wf_clear d : Dict.wf (Dict.clear d).
Proof. constructor. Qed.

End DictFacts.

(** ** Latest and earliest elements *)

Lemma latest_unique x y l : latest x l -> latest y l -> x = y.
Proof.
  intros [Hx Fx] [Hy Fy]. rewrite Forall_forall in Fx, Fy.
  apply Fy in Hx. apply Fx in Hy. lia.
Qed.

Lemma earliest_unique x y l : earliest x l -> earliest y l -> x = y.
Proof.
  intros [Hx Fx] [Hy Fy]. rewrite Forall_forall in Fx, Fy.
  apply Fy in Hx. apply Fx in Hy. lia.
Qed.

Lemma latest_fold_max l : forall a, latest (fold_left Z.max l a) (a :: l).
Proof.
  induction l as [| b l IH]; intros a; simpl.
  - split; [now left | constructor; [lia | constructor]].
  - destruct (IH (Z.max a b)) as [Hin Hall].
    inversion Hall as [| ? ? Hab Hl]; subst. split.
    + destruct Hin as [Heq | Hin]; [| right; right; exact Hin].
      rewrite <- Heq. destruct (Z.max_spec a b) as [[_ ->] | [_ ->]]; simpl; auto.
    + constructor; [lia | constructor; [lia | assumption]].
Qed.

Lemma earliest_fold_min l : forall a, earliest (fold_left Z.min l a) (a :: l).
Proof.
  induction l as [| b l IH]; intros a; simpl.
  - split; [now left | constructor; [lia | constructor]].
  - destruct (IH (Z.min a b)) as [Hin Hall].
    inversion Hall as [| ? ? Hab Hl]; subst. split.
    + destruct Hin as [Heq | Hin]; [| right; right; exact Hin].
      rewrite <- Heq. destruct (Z.min_spec a b) as [[_ ->] | [_ ->]]; simpl; auto.
    + constructor; [lia | constructor; [lia | assumption]].
Qed.

(** ** timesync.py: the shared timeframe *)
Section SharedTimeframe.
Context {TimeFrame : Type}.
Variable get_norm_times : TimeFrame -> datetime * datetime.
Variable strftime : datetime -> string.
Implicit Type TIMEFRAMES : TimeSync.store TimeFrame.

Local Abbreviation find := (TimeSync.find_shared_timeframe get_norm_times).
Local Abbreviation starts := (TimeSync.utc_starts get_norm_times).
Local Abbreviation ends := (TimeSync.utc_ends get_norm_times).

Lemma scan_max_min a b timeframe :
  TimeSync.scan get_norm_times (a, b) timeframe
  = (Z.max a (fst (get_norm_times timeframe)),
     Z.min b (snd (get_norm_times timeframe))).
Proof.
  unfold TimeSync.scan. destruct (get_norm_times timeframe) as [s e]. simpl.
  rewrite Z.gtb_ltb.
  destruct (Z.ltb_spec a s), (Z.ltb_spec e b); f_equal; lia.
Qed.

(** The loop of [find_shared_timeframe] leaves the maximum of the starts
    and the minimum of the ends. *)
Lemma fold_scan rest : forall a b,
  fold_left (TimeSync.scan get_norm_times) rest (a, b)
  = (fold_left Z.max (map (fun t => fst (get_norm_times t)) rest) a,
     fold_left Z.min (map (fun t => snd (get_norm_times t)) rest) b).
Proof.
  induction rest as [| t rest IH]; intros a b; [reflexivity |].
  cbn [fold_left map]. rewrite scan_max_min. apply IH.
Qed.

(** A store that is not empty has a latest start and an earliest end. *)
Lemma latest_earliest_exist TIMEFRAMES :
  TIMEFRAMES <> [] ->
  exists latestStart earliestEnd,
    latest latestStart (starts TIMEFRAMES)
    /\ earliest earliestEnd (ends TIMEFRAMES).
Proof.
  destruct TIMEFRAMES as [| [k t] d]; [congruence |]. intros _.
  unfold TimeSync.utc_starts, TimeSync.utc_ends. simpl.
  eexists; eexists; split; [apply latest_fold_max | apply earliest_fold_min].
Qed.

(** What [find_shared_timeframe] returns, from the latest start and the
    earliest end of the store. *)
Lemma find_shared_timeframe_bounds TIMEFRAMES latestStart earliestEnd :
  latest latestStart (starts TIMEFRAMES) ->
  earliest earliestEnd (ends TIMEFRAMES) ->
  find TIMEFRAMES
  = Return (if latestStart >? earliestEnd then None
            else Some (latestStart, earliestEnd)).
Proof.
  unfold TimeSync.find_shared_timeframe, TimeSync.utc_starts, TimeSync.utc_ends.
  destruct (Dict.values TIMEFRAMES) as [| first rest].
  - intros [[] _].
  - simpl. intros Hl He.
    destruct (get_norm_times first) as [s0 e0] eqn:E0. rewrite fold_scan.
    simpl in Hl, He.
    rewrite (latest_unique _ _ _ Hl (latest_fold_max _ s0)).
    rewrite (earliest_unique _ _ _ He (earliest_fold_min _ e0)).
    now destruct (_ >? _).
Qed.

(** On a store of two timeframes or more, [find_shared_timeframe] returns
    the pair of the latest start and the earliest end when the first is
    before the second. *)
Lemma find_shared_timeframe_shared TIMEFRAMES latestStart earliestEnd :
  (2 <= Dict.len TIMEFRAMES)%nat ->
  latest latestStart (starts TIMEFRAMES) ->
  earliest earliestEnd (ends TIMEFRAMES) ->
  latestStart < earliestEnd ->
  find TIMEFRAMES = Return (Some (latestStart, earliestEnd)).
Proof.
  intros _ Hl He Hlt. rewrite (find_shared_timeframe_bounds _ _ _ Hl He).
  rewrite Z.gtb_ltb. destruct (Z.ltb_spec earliestEnd latestStart); [lia | reflexivity].
Qed.

(** C2, as amended: on a store of two timeframes or more
    [find_shared_timeframe] returns [None] when the latest start is after
    the earliest end; when the two are equal it returns the pair of them, an
    interval of length zero. *)
Theorem find_shared_timeframe_none TIMEFRAMES latestStart earliestEnd :
  (2 <= Dict.len TIMEFRAMES)%nat ->
  latest latestStart (starts TIMEFRAMES) ->
  earliest earliestEnd (ends TIMEFRAMES) ->
  (latestStart > earliestEnd -> find TIMEFRAMES = Return None)
  /\ (latestStart = earliestEnd ->
      find TIMEFRAMES = Return (Some (latestStart, earliestEnd)))
  /\ (find TIMEFRAMES = Return None -> latestStart > earliestEnd).
Proof.
  intros _ Hl He. rewrite (find_shared_timeframe_bounds _ _ _ Hl He).
  rewrite Z.gtb_ltb.
  destruct (Z.ltb_spec earliestEnd latestStart); repeat split;
    intros; try reflexivity; try lia; discriminate.
Qed.

(** C4: with no timeframe or one timeframe in the store, the [find] branch
    of [main] reports that too few were provided and goes on to the next
    command; [find_shared_timeframe] is not called, and neither an interval
    nor its absence is reported. *)
Theorem main_find_too_few TIMEFRAMES :
  (Dict.len TIMEFRAMES <= 1)%nat ->
  TimeSync.main_find get_norm_times strftime TIMEFRAMES
  = ([TimeSync.too_few (Dict.len TIMEFRAMES)], TimeSync.TooFewTimeframes).
Proof.
  intros H. unfold TimeSync.main_find.
  destruct (Nat.leb_spec (Dict.len TIMEFRAMES) 1); [reflexivity | lia].
Qed.

(** With two timeframes or more the branch does call
    [find_shared_timeframe], which returns. *)
Lemma main_find_searches TIMEFRAMES :
  (2 <= Dict.len TIMEFRAMES)%nat ->
  exists shared_timeframe,
    find TIMEFRAMES = Return shared_timeframe
    /\ snd (TimeSync.main_find get_norm_times strftime TIMEFRAMES)
       = TimeSync.Searched (Return shared_timeframe).
Proof.
  intros H. unfold TimeSync.main_find.
  destruct (Nat.leb_spec (Dict.len TIMEFRAMES) 1); [lia |].
  destruct (latest_earliest_exist TIMEFRAMES) as (ls & ee & Hl & He).
  { destruct TIMEFRAMES; [simpl in H; lia | discriminate]. }
  rewrite (find_shared_timeframe_bounds _ _ _ Hl He).
  eexists; split; [reflexivity |].
  now destruct (ls >? ee).
Qed.

End SharedTimeframe.

(** ** timesync.py: adding, removing and resetting *)
Section Mutations.
Context {TimeFrame : Type}.
Implicit Type TIMEFRAMES : TimeSync.store TimeFrame.

(** C7: for an id that is absent, [remove_timeframe] returns [False] and the
    store is the same dictionary as before; and after a removal that
    returned [True], removing the same id again returns [False]. *)
Theorem remove_timeframe_absent TIMEFRAMES timeframe_id :
  (Dict.contains timeframe_id TIMEFRAMES = false ->
   TimeSync.remove_timeframe TIMEFRAMES timeframe_id
   = (TIMEFRAMES, [TimeSync.does_not_exist timeframe_id], false))
  /\ (forall TIMEFRAMES' printed,
        TimeSync.remove_timeframe TIMEFRAMES timeframe_id
        = (TIMEFRAMES', printed, true) ->
        TimeSync.remove_timeframe TIMEFRAMES' timeframe_id
        = (TIMEFRAMES', [TimeSync.does_not_exist timeframe_id], false)).
Proof.
  unfold TimeSync.remove_timeframe. split.
  - now intros ->.
  - intros T' printed.
    destruct (Dict.contains timeframe_id TIMEFRAMES); simpl; [| discriminate].
    intros [= <- _]. now rewrite contains_pop.
Qed.

(** A removal that returns [True] takes the id, and only the id, out of the
    store. *)
Lemma remove_timeframe_present TIMEFRAMES timeframe_id :
  Dict.contains timeframe_id TIMEFRAMES = true ->
  TimeSync.remove_timeframe TIMEFRAMES timeframe_id
  = (Dict.pop timeframe_id TIMEFRAMES, [TimeSync.removed timeframe_id], true).
Proof. unfold TimeSync.remove_timeframe. now intros ->. Qed.

(** C5, as amended: [reset] empties the store and returns [True] when the
    answer to its confirmation question is y or yes, in any letter case;
    on every other answer it returns [False] and the store is as before. *)
Theorem reset_on_confirmation TIMEFRAMES response :
  (lower response = "y" \/ lower response = "yes" ->
   TimeSync.reset TIMEFRAMES response
   = ([], [TimeSync.reset_question; TimeSync.removed_all], true))
  /\ (lower response <> "y" /\ lower response <> "yes" ->
      TimeSync.reset TIMEFRAMES response
      = (TIMEFRAMES, [TimeSync.reset_question], false)).
Proof.
  unfold TimeSync.reset. split; intros H.
  - apply confirmed_iff in H. now rewrite H.
  - destruct (confirmed response) eqn:E; [| reflexivity].
    apply confirmed_iff in E. tauto.
Qed.

Variable TimeFrame_init : string -> datetime -> datetime -> outcome TimeFrame.

Local Abbreviation add_timeframe := (TimeSync.add_timeframe TimeFrame_init).

Local Abbreviation effective_id := TimeSync.effective_id.

(** An id that is absent is stored without a question, when the
    constructor returns. *)
Lemma add_timeframe_fresh TIMEFRAMES response timeframe_id utc_offset
    start_time end_time new_timeframe :
  Dict.contains (effective_id TIMEFRAMES timeframe_id) TIMEFRAMES = false ->
  TimeFrame_init utc_offset start_time end_time = Return new_timeframe ->
  add_timeframe TIMEFRAMES response timeframe_id utc_offset start_time end_time
  = (Dict.setitem (effective_id TIMEFRAMES timeframe_id) new_timeframe TIMEFRAMES,
     [TimeSync.timeframe_added], Return tt).
Proof.
  intros Habs Hinit. unfold TimeSync.add_timeframe.
  now rewrite Habs, Hinit.
Qed.

(** C6: for an id that is present, [add_timeframe] first reports that a
    timeframe with this id already exists; unless the answer to its
    question is y or yes it then stops, and the store, with the timeframe
    under the id, is as before; on y or yes the new timeframe replaces the
    old one. *)
Theorem add_timeframe_duplicate TIMEFRAMES response timeframe_id id utc_offset
    start_time end_time :
  effective_id TIMEFRAMES timeframe_id = id ->
  Dict.contains id TIMEFRAMES = true ->
  (confirmed response = false ->
     add_timeframe TIMEFRAMES response timeframe_id utc_offset start_time end_time
     = (TIMEFRAMES, [TimeSync.already_exists id; TimeSync.action_aborted],
        Return tt))
  /\ (confirmed response = true ->
      forall new_timeframe,
        TimeFrame_init utc_offset start_time end_time = Return new_timeframe ->
        add_timeframe TIMEFRAMES response timeframe_id utc_offset start_time end_time
        = (Dict.setitem id new_timeframe TIMEFRAMES,
           [TimeSync.already_exists id; TimeSync.timeframe_added], Return tt)
        /\ Dict.get id (Dict.setitem id new_timeframe TIMEFRAMES)
           = Some new_timeframe).
Proof.
  intros Hid Hpres. unfold TimeSync.add_timeframe.
  rewrite Hid, Hpres.
  split; intros Hconf; rewrite Hconf; simpl; [reflexivity |].
  intros new_timeframe ->. split; [reflexivity | apply get_setitem].
Qed.

(** The three mutations keep the keys of [TIMEFRAMES] pairwise distinct. *)
Lemma mutations_keep_wf TIMEFRAMES response timeframe_id utc_offset
    start_time end_time :
  Dict.wf TIMEFRAMES ->
  Dict.wf (fst (fst (add_timeframe TIMEFRAMES response timeframe_id utc_offset
                       start_time end_time)))
  /\ (forall id, Dict.wf (fst (fst (TimeSync.remove_timeframe TIMEFRAMES id))))
  /\ Dict.wf (fst (fst (TimeSync.reset TIMEFRAMES response))).
Proof.
  intros Hwf. repeat split.
  - unfold TimeSync.add_timeframe.
    destruct (_ && _)%bool; [assumption |].
    destruct (TimeFrame_init _ _ _); [now apply wf_setitem | assumption].
  - intros id. unfold TimeSync.remove_timeframe.
    destruct (negb _); [assumption | now apply wf_pop].
  - unfold TimeSync.reset. destruct (confirmed _); [apply wf_clear | assumption].
Qed.

End Mutations.

(** ** Strings of repeated marks *)

Lemma append_assoc (s1 s2 s3 : string) :
  ((s1 ++ s2) ++ s3 = s1 ++ (s2 ++ s3))%string.
Proof. induction s1 as [| a s1 IH]; simpl; [reflexivity | now rewrite IH]. Qed.

Lemma get_append (s1 s2 : string) : forall k,
  String.get k (s1 ++ s2)%string
  = if (k <? String.length s1)%nat then String.get k s1
    else String.get (k - String.length s1) s2.
Proof.
  induction s1 as [| a s1 IH]; intros k; simpl.
  - now rewrite Nat.sub_0_r.
  - destruct k as [| k]; [reflexivity |]. rewrite IH. reflexivity.
Qed.

Lemma length_rep a n : String.length (rep (String a EmptyString) n) = n.
Proof. induction n as [| n IH]; simpl; [reflexivity | now rewrite IH]. Qed.

Lemma get_rep a n : forall k,
  String.get k (rep (String a EmptyString) n)
  = if (k <? n)%nat then Some a else None.
Proof.
  induction n as [| n IH]; intros k; simpl.
  - reflexivity.
  - destruct k as [| k]; [reflexivity |]. rewrite IH. reflexivity.
Qed.

Lemma Forall2_nth_error {A B} (P : A -> B -> Prop) l1 l2 :
  Forall2 P l1 l2 ->
  forall i a b, nth_error l1 i = Some a -> nth_error l2 i = Some b -> P a b.
Proof.
  induction 1 as [| x y l1 l2 Hxy _ IH]; intros [| i] a b; simpl;
    try discriminate.
  - now intros [= <-] [= <-].
  - apply IH.
Qed.

(** ** common_time.py: [add] and [clear] *)
Section Normalization.
Variable date_today : datetime.
Variable convertToUTC : string -> datetime -> datetime.

(** The offset of a location from UTC, in minutes.  The conversion service
    is taken to shift a local time by the offset of its location, the
    fixed-offset arithmetic the specification prescribes. *)
Variable utc_offset : string -> timedelta.
Hypothesis convertToUTC_shift :
  forall location local, convertToUTC location local = local - utc_offset location.

Local Abbreviation add := (CommonTime.add date_today convertToUTC).

Local Abbreviation valid_stamp := CommonTime.valid_stamp.
Local Abbreviation local_time := (CommonTime.local_time date_today).

Lemma valid_stamp_bounds time_stamp :
  valid_stamp time_stamp = true ->
  0 <= fst time_stamp <= 23 /\ 0 <= snd time_stamp <= 59.
Proof.
  destruct time_stamp as [HH MM]. unfold CommonTime.valid_stamp. simpl.
  rewrite !andb_true_iff, !Z.leb_le. lia.
Qed.

(** [add] on two valid time stamps: what is appended to the two lists. *)
Lemma add_valid st location start_stamp end_stamp :
  valid_stamp start_stamp = true -> valid_stamp end_stamp = true ->
  CommonTime.add date_today convertToUTC st location (start_stamp, end_stamp)
  = Return
      {| CommonTime.startTimes :=
           CommonTime.startTimes st
           ++ [local_time start_stamp - utc_offset location];
         CommonTime.endTimes :=
           CommonTime.endTimes st
           ++ [if local_time start_stamp <? local_time end_stamp
               then local_time end_stamp - utc_offset location
               else local_time end_stamp + 1440 - utc_offset location];
         CommonTime.limit_count := CommonTime.limit_count st + 1 |}.
Proof.
  intros Hs He. unfold CommonTime.add, CommonTime.strptime_today. simpl.
  rewrite Hs, He, !convertToUTC_shift. now destruct (_ <? _).
Qed.



End Normalization.

(** [clear] leaves no timeframe, whatever the state. *)
Lemma clear_empties st :
  CommonTime.clear st
  = {| CommonTime.startTimes := []; CommonTime.endTimes := [];
       CommonTime.limit_count := 0 |}.
Proof. reflexivity. Qed.

(** ** common_time.py: [run] *)

Lemma fold_keep_smaller l : forall a,
  fold_left (fun op item => if op >? item then item else op) l a
  = fold_left Z.min l a.
Proof.
  induction l as [| b l IH]; intros a; [reflexivity |]. simpl.
  rewrite <- IH. f_equal. rewrite Z.gtb_ltb.
  destruct (Z.ltb_spec b a); lia.
Qed.

Lemma fold_keep_greater l : forall a,
  fold_left (fun op item => if op <? item then item else op) l a
  = fold_left Z.max l a.
Proof.
  induction l as [| b l IH]; intros a; [reflexivity |]. simpl.
  rewrite <- IH. f_equal. destruct (Z.ltb_spec a b); lia.
Qed.

(** The two loops of [run] keep the earliest start and the latest end,
    the reverse of what their comments announce. *)
Lemma op_startTime_earliest st first rest :
  CommonTime.startTimes st = first :: rest ->
  earliest (CommonTime.op_startTime st first) (CommonTime.startTimes st).
Proof.
  intros E. unfold CommonTime.op_startTime. rewrite fold_keep_smaller, E.
  simpl. rewrite Z.min_id. apply earliest_fold_min.
Qed.

Lemma op_endTime_latest st first rest :
  CommonTime.endTimes st = first :: rest ->
  latest (CommonTime.op_endTime st first) (CommonTime.endTimes st).
Proof.
  intros E. unfold CommonTime.op_endTime. rewrite fold_keep_greater, E.
  simpl. rewrite Z.max_id. apply latest_fold_max.
Qed.

(** ** common_time.py: [vis] *)

Lemma append_nil_r (s : string) : (s ++ EmptyString)%string = s.
Proof. induction s as [| a s IH]; simpl; [reflexivity | now rewrite IH]. Qed.

(** A loop of [advance] writes its mark some [n] times: at every turn the
    reference was before the bound, and it no longer is at the end. *)
Lemma advance_shape mark bound c :
  exists n : nat,
    CommonTime.advance mark bound c
    = {| CommonTime.output := (CommonTime.output c ++ rep mark n)%string;
         CommonTime.reference_datetime :=
           CommonTime.reference_datetime c + 30 * Z.of_nat n;
         CommonTime.increment_counter :=
           CommonTime.increment_counter c + Z.of_nat n |}
    /\ bound <= CommonTime.reference_datetime c + 30 * Z.of_nat n
    /\ (forall j : nat, (j < n)%nat ->
          CommonTime.reference_datetime c + 30 * Z.of_nat j < bound).
Proof.
  funelim (CommonTime.advance mark bound c).
  - match goal with IH : exists _, _ |- _ => destruct IH as (n & Hn & Hend & Hin) end.
    exists (S n). rewrite Hn. unfold CommonTime.tick in *.
    cbn [CommonTime.output CommonTime.reference_datetime
         CommonTime.increment_counter rep] in *.
    rewrite append_assoc. repeat split.
    + f_equal; lia.
    + lia.
    + intros [| j] Hj; [lia |]. specialize (Hin j ltac:(lia)). lia.
  - exists O. simpl. rewrite append_nil_r, !Z.add_0_r.
    destruct c; repeat split; [lia | intros j Hj; lia].
Qed.

(** The last loop only writes bars. *)
Lemma fill_shape c :
  exists n : nat,
    CommonTime.output (CommonTime.fill c)
    = (CommonTime.output c ++ rep "|" n)%string.
Proof.
  funelim (CommonTime.fill c).
  - match goal with IH : exists _, _ |- _ => destruct IH as (n & Hn) end.
    exists (S n). rewrite Hn. unfold CommonTime.tick.
    cbn [CommonTime.output rep]. now rewrite append_assoc.
  - exists O. simpl. now rewrite append_nil_r.
Qed.

(** A row is bars, then blanks, then bars: the bars of the first run stand
    for the half hours from the origin that begin before the start, the
    blanks for those after them that begin before the end. *)
Lemma row_shape origin startTime endTime counter :
  exists a b p : nat,
    CommonTime.output (CommonTime.row origin startTime endTime counter)
    = (rep "|" a ++ rep " " b ++ rep "|" p)%string
    /\ (forall j : nat, (j < a)%nat -> origin + 30 * Z.of_nat j < startTime)
    /\ startTime <= origin + 30 * Z.of_nat a
    /\ (forall j : nat, (j < b)%nat -> origin + 30 * Z.of_nat (a + j) < endTime)
    /\ endTime <= origin + 30 * Z.of_nat (a + b).
Proof.
  unfold CommonTime.row.
  destruct (advance_shape "|" startTime
              {| CommonTime.output := EmptyString;
                 CommonTime.reference_datetime := origin;
                 CommonTime.increment_counter := counter |})
    as (a & -> & Ha & Hbars).
  cbn [CommonTime.output CommonTime.reference_datetime
       CommonTime.increment_counter] in *.
  match goal with |- context [CommonTime.advance " " endTime ?c] =>
    destruct (advance_shape " " endTime c) as (b & -> & Hb & Hblanks) end.
  cbn [CommonTime.output CommonTime.reference_datetime
       CommonTime.increment_counter] in *.
  match goal with |- context [CommonTime.fill ?c] =>
    destruct (fill_shape c) as (p & ->) end.
  cbn [CommonTime.output]. exists a, b, p. simpl String.append at 3.
  rewrite append_assoc. repeat split; try assumption.
  - intros j Hj. specialize (Hblanks j Hj). lia.
  - lia.
Qed.

(** In a row the character of index [k] is a blank exactly when the half
    hour that begins [k] steps after the origin begins inside the window;
    every other character is a bar. *)
Lemma row_marks origin startTime endTime counter k :
  let r := CommonTime.output (CommonTime.row origin startTime endTime counter) in
  (String.get k r = Some " "%char
   <-> startTime <= origin + 30 * Z.of_nat k < endTime)
  /\ (forall ch, String.get k r = Some ch -> ch = " "%char \/ ch = "|"%char).
Proof.
  destruct (row_shape origin startTime endTime counter)
    as (a & b & p & -> & Hbars & Ha & Hblanks & Hb).
  cbv zeta. rewrite !get_append, !length_rep, !get_rep.
  destruct (Nat.ltb_spec k a) as [Hk | Hk].
  - specialize (Hbars k Hk). split; [| intros ch [= <-]; now right].
    split; [discriminate | lia].
  - destruct (Nat.ltb_spec (k - a) b) as [Hk' | Hk'].
    + specialize (Hblanks (k - a)%nat Hk').
      replace (a + (k - a))%nat with k in Hblanks by lia.
      split; [| intros ch [= <-]; now left].
      split; [lia | reflexivity].
    + split.
      * split; [| lia]. destruct (_ <? _)%nat; discriminate.
      * intros ch. destruct (_ <? _)%nat; [intros [= <-]; now right | discriminate].
Qed.

Lemma vis_loop_rows st origin :
  nth_error (CommonTime.startTimes st) 0 = Some origin ->
  List.length (CommonTime.startTimes st) = List.length (CommonTime.endTimes st) ->
  forall ns counter rows,
    Forall (fun n => (n < List.length (CommonTime.startTimes st))%nat) ns ->
    exists rows',
      CommonTime.vis_loop st ns counter rows = (rows ++ rows', Return tt)
      /\ Forall2
           (fun n r => exists startTime endTime c,
              nth_error (CommonTime.startTimes st) n = Some startTime
              /\ nth_error (CommonTime.endTimes st) n = Some endTime
              /\ r = CommonTime.output (CommonTime.row origin startTime endTime c))
           ns rows'.
Proof.
  intros Horigin Hlen ns.
  induction ns as [| n ns IH]; intros counter rows Hns.
  - exists []. simpl. rewrite app_nil_r. split; constructor.
  - inversion Hns as [| ? ? Hn Hns']; subst.
    destruct (nth_error (CommonTime.startTimes st) n) as [startTime |] eqn:Es;
      [| apply nth_error_None in Es; lia].
    destruct (nth_error (CommonTime.endTimes st) n) as [endTime |] eqn:Ee;
      [| apply nth_error_None in Ee; lia].
    cbn [CommonTime.vis_loop]. rewrite Horigin, Es, Ee.
    destruct (IH (CommonTime.increment_counter
                    (CommonTime.row origin startTime endTime counter))
                 (rows ++ [CommonTime.output
                             (CommonTime.row origin startTime endTime counter)])
                 Hns') as (rows' & -> & Hrows').
    eexists (_ :: rows'). rewrite <- app_assoc. split; [reflexivity |].
    constructor; [| assumption]. now exists startTime, endTime, counter.
Qed.

(** C9, as amended: for lists of start and end times of the same length
    that are not empty, [vis] writes one row for each timeframe, measured
    from the first stored start time in steps of half an hour: the
    character of index [k] of a row is a blank exactly when the half hour
    that begins [k] steps after that origin begins inside the timeframe's
    window, from its start up to but not including its end, and every
    other character of the row is a bar. *)
Theorem vis_marks_window st :
  CommonTime.startTimes st <> [] ->
  List.length (CommonTime.startTimes st) = List.length (CommonTime.endTimes st) ->
  exists origin rows,
    nth_error (CommonTime.startTimes st) 0 = Some origin
    /\ CommonTime.vis st = (rows, Return tt)
    /\ List.length rows = List.length (CommonTime.startTimes st)
    /\ forall n startTime endTime r,
         nth_error (CommonTime.startTimes st) n = Some startTime ->
         nth_error (CommonTime.endTimes st) n = Some endTime ->
         nth_error rows n = Some r ->
         forall k : nat,
           (String.get k r = Some " "%char
            <-> startTime <= origin + 30 * Z.of_nat k < endTime)
           /\ (forall ch, String.get k r = Some ch ->
                 ch = " "%char \/ ch = "|"%char).
Proof.
  intros Hne Hlen.
  destruct (CommonTime.startTimes st) as [| origin starts] eqn:Es; [congruence |].
  rewrite <- Es in *.
  assert (Horigin : nth_error (CommonTime.startTimes st) 0 = Some origin)
    by now rewrite Es.
  destruct (vis_loop_rows st origin Horigin Hlen
              (seq 0 (List.length (CommonTime.startTimes st))) 0 [])
    as (rows & Hvis & Hrows).
  { apply Forall_forall. intros n Hn. apply in_seq in Hn. lia. }
  exists origin, rows. split; [assumption |]. split; [exact Hvis |]. split.
  - apply Forall2_length in Hrows. now rewrite length_seq in Hrows.
  - intros n startTime endTime r Hs He Hr k.
    assert (Hn : nth_error (seq 0 (List.length (CommonTime.startTimes st))) n
                 = Some n).
    { rewrite nth_error_seq.
      destruct (Nat.ltb_spec n (List.length (CommonTime.startTimes st)));
        [reflexivity |].
      assert (nth_error (CommonTime.startTimes st) n = None)
        by now apply nth_error_None.
      congruence. }
    destruct (Forall2_nth_error _ _ _ Hrows n n r Hn Hr)
      as (s' & e' & c & Hs' & He' & ->).
    rewrite Hs in Hs'. rewrite He in He'.
    injection Hs' as <-. injection He' as <-.
    apply row_marks.
Qed.

(** ** Worked examples *)
Module Examples.
Import Samples.

Local Abbreviation find := (TimeSync.find_shared_timeframe Window.get_norm_times).
Local Abbreviation add_timeframe := (TimeSync.add_timeframe Window.init).

(** The example of the specification: the shared interval of A and B is
    10:00-17:00 UTC. *)
Example find_A_B :
  find [("A", A); ("B", B)] = Return (Some (Window.at_ 10 0, Window.at_ 17 0)).
Proof. reflexivity. Qed.

(** C1: on A and B, whose latest start is 10:00 and earliest end 17:00, the
    loops of the legacy [run] end with the earliest start, 09:00, and the
    latest end, 18:00, and [run] then raises on [delta.hours];
    [find_shared_timeframe] returns 10:00-17:00 for the same two windows. *)
Theorem run_keeps_earliest_start_latest_end (strftime : string -> datetime -> string) :
  latest (Window.at_ 10 0) (CommonTime.startTimes AB_state)
  /\ earliest (Window.at_ 17 0) (CommonTime.endTimes AB_state)
  /\ CommonTime.op_startTime AB_state (Window.at_ 9 0) = Window.at_ 9 0
  /\ CommonTime.op_endTime AB_state (Window.at_ 17 0) = Window.at_ 18 0
  /\ CommonTime.run strftime AB_state
     = ([strftime CommonTime.dt_format (Window.at_ 9 0);
         strftime CommonTime.dt_format (Window.at_ 17 0)],
        Raise AttributeError)
  /\ find [("A", A); ("B", B)]
     = Return (Some (Window.at_ 10 0, Window.at_ 17 0)).
Proof.
  repeat split; try reflexivity; simpl; auto;
    repeat constructor; vm_compute; discriminate.
Qed.

(** C2 fails where the latest start equals the earliest end: for F and G
    both are 01:00, and [find_shared_timeframe] returns the pair
    (01:00, 01:00), not [None]. *)
Lemma find_touching_is_not_none :
  (2 <= Dict.len [("F", F); ("G", G)])%nat
  /\ latest (Window.at_ 1 0)
       (TimeSync.utc_starts Window.get_norm_times [("F", F); ("G", G)])
  /\ earliest (Window.at_ 1 0)
       (TimeSync.utc_ends Window.get_norm_times [("F", F); ("G", G)])
  /\ find [("F", F); ("G", G)]
     = Return (Some (Window.at_ 1 0, Window.at_ 1 0))
  /\ find [("F", F); ("G", G)] <> Return None.
Proof.
  repeat split; try reflexivity; simpl; auto;
    try (repeat constructor; vm_compute; discriminate).
Qed.

(** The theorem of C2 at D and E, which do not overlap: [None]. *)
Lemma find_shared_timeframe_none_D_E :
  find [("D", D); ("E", E)] = Return None.
Proof.
  apply (find_shared_timeframe_none Window.get_norm_times
           [("D", D); ("E", E)] (Window.at_ 5 0) (Window.at_ 4 0)).
  - simpl. lia.
  - split; [simpl; auto | repeat constructor; vm_compute; discriminate].
  - split; [simpl; auto | repeat constructor; vm_compute; discriminate].
  - vm_compute. reflexivity.
Defined.

(** The theorem of C4 at a store of one timeframe. *)
Lemma main_find_too_few_one :
  TimeSync.main_find Window.get_norm_times minutes [("A", A)]
  = ([TimeSync.too_few 1], TimeSync.TooFewTimeframes).
Proof.
  apply (main_find_too_few Window.get_norm_times minutes [("A", A)]).
  simpl. lia.
Defined.

(** C5 fails on an answer other than y or yes: [reset] answered n returns
    [False] and the store still holds its timeframe. *)
Lemma reset_declined_keeps_store :
  TimeSync.reset [("A", A)] "n" = ([("A", A)], [TimeSync.reset_question], false)
  /\ fst (fst (TimeSync.reset [("A", A)] "n")) <> [].
Proof. split; [reflexivity | discriminate]. Qed.

(** The theorem of C5 at the answer Yes. *)
Lemma reset_on_confirmation_Yes :
  TimeSync.reset [("A", A)] "Yes"
  = ([], [TimeSync.reset_question; TimeSync.removed_all], true).
Proof.
  apply (proj1 (reset_on_confirmation [("A", A)] "Yes")).
  right. reflexivity.
Defined.

(** The theorem of C6 at the id A, which is present, and the answer n. *)
Lemma add_timeframe_duplicate_declined :
  add_timeframe [("A", A)] "n" (Some "A") "+00:00" (Window.at_ 10 0)
    (Window.at_ 18 0)
  = ([("A", A)], [TimeSync.already_exists "A"; TimeSync.action_aborted],
     Return tt).
Proof.
  apply (proj1 (add_timeframe_duplicate Window.init [("A", A)] "n" (Some "A")
                  "A" "+00:00" (Window.at_ 10 0) (Window.at_ 18 0)
                  eq_refl eq_refl)).
  reflexivity.
Defined.

(** The theorem of C7 at the id B, which is absent. *)
Lemma remove_timeframe_absent_B :
  TimeSync.remove_timeframe [("A", A)] "B"
  = ([("A", A)], [TimeSync.does_not_exist "B"], false).
Proof.
  apply (proj1 (remove_timeframe_absent [("A", A)] "B")). reflexivity.
Defined.





(** C9 fails on 10:00-11:00 stored before 09:00-10:00.  The origin [vis]
    measures from is 10:00, not the least start, 09:00; its first row has
    49 characters, two blanks and 47 bars; its second row is empty.  The
    rows of the specification have 48 marks each and begin at 09:00. *)
Lemma vis_differs_from_specification :
  CommonTime.vis late_first = ([("  " ++ rep "|" 47)%string; EmptyString], Return tt)
  /\ VisSpec.origin (CommonTime.startTimes late_first) = Window.at_ 9 0
  /\ VisSpec.vis late_first
     = [("||  " ++ rep "|" 44)%string; ("  " ++ rep "|" 46)%string]
  /\ fst (CommonTime.vis late_first) <> VisSpec.vis late_first.
Proof. repeat split; try (vm_compute; reflexivity). vm_compute. discriminate. Qed.

(** The theorem of C9 at the lists of A and B. *)
Lemma vis_marks_window_A_B :
  exists origin rows,
    nth_error (CommonTime.startTimes AB_state) 0 = Some origin
    /\ CommonTime.vis AB_state = (rows, Return tt)
    /\ List.length rows = List.length (CommonTime.startTimes AB_state)
    /\ forall n startTime endTime r,
         nth_error (CommonTime.startTimes AB_state) n = Some startTime ->
         nth_error (CommonTime.endTimes AB_state) n = Some endTime ->
         nth_error rows n = Some r ->
         forall k : nat,
           (String.get k r = Some " "%char
            <-> startTime <= origin + 30 * Z.of_nat k < endTime)
           /\ (forall ch, String.get k r = Some ch ->
                 ch = " "%char \/ ch = "|"%char).
Proof.
  apply (vis_marks_window AB_state).
  - discriminate.
  - reflexivity.
Defined.

(** C10: [add_timeframe] called with [None] stores under "Timeframe "
    followed by the size of the store less one.  On the empty store that is
    "Timeframe -1".  After three such additions and the removal of
    "Timeframe -1" the store holds "Timeframe 0" and "Timeframe 1", and the
    default id is "Timeframe 1" again: the next addition without an id
    meets the timeframe stored under it. *)
Theorem add_timeframe_default_id :
  (forall (TimeFrame : Type) (TIMEFRAMES : TimeSync.store TimeFrame),
     TimeSync.effective_id TIMEFRAMES None
     = ("Timeframe " ++ str_of_int (Z.of_nat (Dict.len TIMEFRAMES) - 1))%string)
  /\ (forall (TimeFrame : Type) TimeFrame_init
        (TIMEFRAMES : TimeSync.store TimeFrame) response utc_offset
        start_time end_time,
        TimeSync.add_timeframe TimeFrame_init TIMEFRAMES response None
          utc_offset start_time end_time
        = TimeSync.add_timeframe TimeFrame_init TIMEFRAMES response
            (Some ("Timeframe " ++ str_of_int (Z.of_nat (Dict.len TIMEFRAMES) - 1))%string)
            utc_offset start_time end_time)
  /\ add_timeframe [] "n" None "+00:00" (fst A) (snd A)
     = ([("Timeframe -1", A)], [TimeSync.timeframe_added], Return tt)
  /\ three_added_one_removed = [("Timeframe 0", B); ("Timeframe 1", D)]
  /\ TimeSync.default_id three_added_one_removed = "Timeframe 1"
  /\ Dict.contains (TimeSync.default_id three_added_one_removed)
       three_added_one_removed = true
  /\ add_timeframe three_added_one_removed "n" None "+00:00" (fst E) (snd E)
     = (three_added_one_removed,
        [TimeSync.already_exists "Timeframe 1"; TimeSync.action_aborted],
        Return tt).
Proof. repeat split; reflexivity. Qed.

End Examples.

(** * Further properties of the code *)

(** ** timesync.py: what [find_shared_timeframe] returns *)
Section SharedTimeframeMore.
Context {TimeFrame : Type}.
Variable get_norm_times : TimeFrame -> datetime * datetime.
Implicit Type TIMEFRAMES : TimeSync.store TimeFrame.

Local Abbreviation find := (TimeSync.find_shared_timeframe get_norm_times).
Local Abbreviation starts := (TimeSync.utc_starts get_norm_times).
Local Abbreviation ends := (TimeSync.utc_ends get_norm_times).
Local Abbreviation norm_start := (fun timeframe => fst (get_norm_times timeframe)).
Local Abbreviation norm_end := (fun timeframe => snd (get_norm_times timeframe)).

Lemma latest_starts_values TIMEFRAMES x :
  latest x (starts TIMEFRAMES) <->
  (exists timeframe, In timeframe (Dict.values TIMEFRAMES)
                     /\ norm_start timeframe = x)
  /\ (forall timeframe, In timeframe (Dict.values TIMEFRAMES) ->
        norm_start timeframe <= x).
Proof.
  unfold latest, TimeSync.utc_starts. rewrite in_map_iff, Forall_forall.
  split; intros [Hin Hall]; (split; [| intros t Ht]).
  - destruct Hin as (t & Ht & Hin). now exists t.
  - apply Hall, in_map_iff. now exists t.
  - destruct Hin as (t & Hin & Ht). now exists t.
  - apply in_map_iff in Ht as (t' & <- & Ht'). now apply Hall.
Qed.

Lemma earliest_ends_values TIMEFRAMES x :
  earliest x (ends TIMEFRAMES) <->
  (exists timeframe, In timeframe (Dict.values TIMEFRAMES)
                     /\ norm_end timeframe = x)
  /\ (forall timeframe, In timeframe (Dict.values TIMEFRAMES) ->
        x <= norm_end timeframe).
Proof.
  unfold earliest, TimeSync.utc_ends. rewrite in_map_iff, Forall_forall.
  split; intros [Hin Hall]; (split; [| intros t Ht]).
  - destruct Hin as (t & Ht & Hin). now exists t.
  - apply Hall, in_map_iff. now exists t.
  - destruct Hin as (t & Hin & Ht). now exists t.
  - apply in_map_iff in Ht as (t' & <- & Ht'). now apply Hall.
Qed.

(** The result on a store that is not empty, from the latest start and the
    earliest end that [latest_earliest_exist] provides. *)
Lemma find_shared_timeframe_cases TIMEFRAMES :
  TIMEFRAMES <> [] ->
  exists latestStart earliestEnd,
    latest latestStart (starts TIMEFRAMES)
    /\ earliest earliestEnd (ends TIMEFRAMES)
    /\ ((earliestEnd < latestStart /\ find TIMEFRAMES = Return None)
        \/ (latestStart <= earliestEnd
            /\ find TIMEFRAMES = Return (Some (latestStart, earliestEnd)))).
Proof.
  intros Hne.
  destruct (latest_earliest_exist get_norm_times TIMEFRAMES Hne)
    as (ls & ee & Hl & He).
  exists ls, ee. split; [assumption |]. split; [assumption |].
  rewrite (find_shared_timeframe_bounds _ _ _ _ Hl He), Z.gtb_ltb.
  destruct (Z.ltb_spec ee ls); [left | right]; auto.
Qed.

(** X1: a pair [find_shared_timeframe] returns is not inverted, lies inside
    the normalized window of every stored timeframe, and contains every
    interval that lies inside all of them. *)
Theorem find_shared_timeframe_largest_common TIMEFRAMES s e :
  find TIMEFRAMES = Return (Some (s, e)) ->
  s <= e
  /\ (forall timeframe, In timeframe (Dict.values TIMEFRAMES) ->
        norm_start timeframe <= s /\ e <= norm_end timeframe)
  /\ (forall a b,
        (forall timeframe, In timeframe (Dict.values TIMEFRAMES) ->
           norm_start timeframe <= a /\ b <= norm_end timeframe) ->
        s <= a /\ b <= e).
Proof.
  intros Hfind.
  destruct TIMEFRAMES as [| entry d] eqn:ET; [discriminate |].
  rewrite <- ET in *.
  destruct (find_shared_timeframe_cases TIMEFRAMES) as (ls & ee & Hl & He & Hcase).
  { rewrite ET. discriminate. }
  destruct Hcase as [[_ Hnone] | [Hle Hsome]]; [congruence |].
  rewrite Hsome in Hfind. injection Hfind as <- <-.
  apply latest_starts_values in Hl as [(t1 & Ht1 & Hs1) Hl].
  apply earliest_ends_values in He as [(t2 & Ht2 & He2) He].
  split; [assumption |]. split.
  - intros t Ht. split; [now apply Hl | now apply He].
  - intros a b Hall. split.
    + rewrite <- Hs1. now apply Hall.
    + rewrite <- He2. now apply Hall.
Qed.

(** [None] is returned exactly when a stored timeframe ends before a
    stored timeframe starts. *)
Lemma find_shared_timeframe_none_iff_ends_before TIMEFRAMES :
  find TIMEFRAMES = Return None <->
  exists later sooner,
    In later (Dict.values TIMEFRAMES) /\ In sooner (Dict.values TIMEFRAMES)
    /\ norm_end sooner < norm_start later.
Proof.
  destruct TIMEFRAMES as [| entry d] eqn:ET.
  - split; [discriminate | intros (t & _ & [] & _)].
  - rewrite <- ET.
    destruct (find_shared_timeframe_cases TIMEFRAMES) as (ls & ee & Hl & He & Hcase).
    { rewrite ET. discriminate. }
    apply latest_starts_values in Hl as [(t1 & Ht1 & Hs1) Hl].
    apply earliest_ends_values in He as [(t2 & Ht2 & He2) He].
    split.
    + intros Hnone. destruct Hcase as [[Hlt _] | [_ Hsome]]; [| congruence].
      exists t1, t2. repeat split; try assumption. lia.
    + intros (later & sooner & Hlater & Hsooner & Hlt).
      destruct Hcase as [[_ Hnone] | [Hle _]]; [assumption |].
      specialize (Hl later Hlater). specialize (He sooner Hsooner). lia.
Qed.

(** X2: [find_shared_timeframe] returns [None] exactly when some stored
    timeframe ends before some stored timeframe starts, which can be one
    and the same timeframe when its own window is inverted.  When no stored
    window is inverted, it returns [None] exactly when two different stored
    timeframes are apart, one ending before the other starts. *)
Theorem find_shared_timeframe_none_iff_apart TIMEFRAMES :
  (find TIMEFRAMES = Return None <->
   exists later sooner,
     In later (Dict.values TIMEFRAMES) /\ In sooner (Dict.values TIMEFRAMES)
     /\ norm_end sooner < norm_start later)
  /\ ((forall timeframe, In timeframe (Dict.values TIMEFRAMES) ->
         norm_start timeframe <= norm_end timeframe) ->
      (find TIMEFRAMES = Return None <->
       exists later sooner,
         In later (Dict.values TIMEFRAMES) /\ In sooner (Dict.values TIMEFRAMES)
         /\ later <> sooner
         /\ norm_end sooner < norm_start later)).
Proof.
  split; [apply find_shared_timeframe_none_iff_ends_before |].
  intros Hwindows. rewrite find_shared_timeframe_none_iff_ends_before.
  split.
  - intros (later & sooner & Hlater & Hsooner & Hlt).
    exists later, sooner. repeat split; try assumption.
    intros ->. specialize (Hwindows sooner Hsooner). lia.
  - intros (later & sooner & Hlater & Hsooner & _ & Hlt).
    now exists later, sooner.
Qed.

(** X3: the order in which the timeframes were stored does not matter to
    [find_shared_timeframe]. *)
Theorem find_shared_timeframe_permutation TIMEFRAMES TIMEFRAMES' :
  Permutation TIMEFRAMES TIMEFRAMES' ->
  TimeSync.find_shared_timeframe get_norm_times TIMEFRAMES
  = TimeSync.find_shared_timeframe get_norm_times TIMEFRAMES'.
Proof.
  intros Hperm.
  destruct TIMEFRAMES as [| entry d] eqn:ET.
  - apply Permutation_nil in Hperm. now subst.
  - rewrite <- ET in *.
    assert (Hne : TIMEFRAMES <> []) by (rewrite ET; discriminate).
    destruct (latest_earliest_exist get_norm_times TIMEFRAMES Hne)
      as (ls & ee & Hl & He).
    assert (Hvalues : Permutation (Dict.values TIMEFRAMES) (Dict.values TIMEFRAMES'))
      by now apply Permutation_map.
    rewrite (find_shared_timeframe_bounds _ _ _ _ Hl He).
    symmetry. apply find_shared_timeframe_bounds.
    + apply latest_starts_values in Hl as [(t1 & Ht1 & Hs1) Hl].
      apply latest_starts_values. split.
      * exists t1. split; [now apply (Permutation_in _ Hvalues) | assumption].
      * intros t Ht. apply Hl.
        now apply (Permutation_in _ (Permutation_sym Hvalues)).
    + apply earliest_ends_values in He as [(t2 & Ht2 & He2) He].
      apply earliest_ends_values. split.
      * exists t2. split; [now apply (Permutation_in _ Hvalues) | assumption].
      * intros t Ht. apply He.
        now apply (Permutation_in _ (Permutation_sym Hvalues)).
Qed.

(** X4: [find_shared_timeframe] has no guard of its own.  It raises, and
    then [IndexError], exactly on the empty store; on a store whose
    timeframes all have the same normalized times, one timeframe included,
    it returns these times when the start is not after the end. *)
Theorem find_shared_timeframe_without_guard TIMEFRAMES :
  (forall e, find TIMEFRAMES = Raise e <-> TIMEFRAMES = [] /\ e = IndexError)
  /\ (forall s e,
        TIMEFRAMES <> [] ->
        (forall timeframe, In timeframe (Dict.values TIMEFRAMES) ->
           get_norm_times timeframe = (s, e)) ->
        s <= e ->
        find TIMEFRAMES = Return (Some (s, e))).
Proof.
  split.
  - intros e. destruct TIMEFRAMES as [| entry d] eqn:ET.
    + cbn. split; [intros [= <-]; now split | intros [_ ->]; reflexivity].
    + rewrite <- ET.
      destruct (find_shared_timeframe_cases TIMEFRAMES)
        as (ls & ee & _ & _ & [[_ H] | [_ H]]);
        try (rewrite ET; discriminate);
        rewrite H; (split; [discriminate | rewrite ET; intros [[=] _]]).
  - intros s e Hne Hsame Hle.
    destruct (find_shared_timeframe_cases TIMEFRAMES Hne)
      as (ls & ee & Hl & He & Hcase).
    apply latest_starts_values in Hl as [(t1 & Ht1 & Hs1) _].
    apply earliest_ends_values in He as [(t2 & Ht2 & He2) _].
    rewrite (Hsame t1 Ht1) in Hs1. rewrite (Hsame t2 Ht2) in He2.
    simpl in Hs1, He2. subst ls ee.
    destruct Hcase as [[Hlt _] | [_ Hsome]]; [lia | assumption].
Qed.

End SharedTimeframeMore.

(** ** The dictionary: insertion, removal and lookup together *)
Section DictMore.
Context {V : Type}.
Implicit Types (d : Dict.t V) (k : string) (v : V).

Lemma pop_setitem_absent k v d :
  Dict.contains k d = false -> Dict.pop k (Dict.setitem k v d) = d.
Proof.
  induction d as [| [k' v'] d IH].
  - intros _. unfold Dict.pop. simpl. now rewrite String.eqb_refl.
  - rewrite contains_cons. intros H. apply orb_false_elim in H as [Hk Hd].
    simpl. rewrite Hk. unfold Dict.pop in *. simpl. rewrite Hk. simpl.
    now rewrite IH.
Qed.

Lemma values_setitem_absent k v d :
  Dict.contains k d = false ->
  Dict.values (Dict.setitem k v d) = Dict.values d ++ [v].
Proof.
  induction d as [| [k' v'] d IH]; [reflexivity |].
  rewrite contains_cons. intros H. apply orb_false_elim in H as [Hk Hd].
  simpl. rewrite Hk. unfold Dict.values in *. simpl. f_equal. now apply IH.
Qed.

Lemma len_setitem_absent k v d :
  Dict.contains k d = false -> Dict.len (Dict.setitem k v d) = S (Dict.len d).
Proof.
  intros H.
  assert (Hk := f_equal (@List.length _) (keys_setitem_absent k v d H)).
  unfold Dict.keys, Dict.len in *.
  rewrite length_app, !length_map in Hk. cbn [List.length] in Hk. lia.
Qed.

Lemma get_pop_other k k' d :
  k <> k' -> Dict.get k (Dict.pop k' d) = Dict.get k d.
Proof.
  intros Hne. apply String.eqb_neq in Hne.
  induction d as [| [k0 v0] d IH]; [reflexivity |].
  unfold Dict.pop in *. simpl.
  destruct (String.eqb k' k0) eqn:E; simpl.
  - apply String.eqb_eq in E. subst k0. now rewrite Hne.
  - now rewrite IH.
Qed.

End DictMore.

(** ** The answers the two questions accept *)

Lemma lower_ascii_y c : lower_ascii c = "y"%char -> c = "y"%char \/ c = "Y"%char.
Proof.
  destruct c as [[] [] [] [] [] [] [] []]; vm_compute; intros H;
    try discriminate H; auto.
Qed.

Lemma lower_ascii_e c : lower_ascii c = "e"%char -> c = "e"%char \/ c = "E"%char.
Proof.
  destruct c as [[] [] [] [] [] [] [] []]; vm_compute; intros H;
    try discriminate H; auto.
Qed.

Lemma lower_ascii_s c : lower_ascii c = "s"%char -> c = "s"%char \/ c = "S"%char.
Proof.
  destruct c as [[] [] [] [] [] [] [] []]; vm_compute; intros H;
    try discriminate H; auto.
Qed.

(** X5: the questions of [add_timeframe], [reset] and the exit of [main]
    take as a yes exactly y and yes in any mix of upper and lower case;
    every other answer, also one with a blank before or after, is a no. *)
Theorem confirmed_answers response :
  confirmed response = true <->
  In response ["y"; "Y"; "yes"; "yeS"; "yEs"; "yES"; "Yes"; "YeS"; "YEs"; "YES"].
Proof.
  split.
  - intros H. apply confirmed_iff in H as [H | H].
    + destruct response as [| c [| c' r]]; try discriminate H.
      injection H as H. apply lower_ascii_y in H as [-> | ->]; simpl; auto.
    + destruct response as [| c1 [| c2 [| c3 [| c4 r]]]]; try discriminate H.
      injection H as H1 H2 H3.
      apply lower_ascii_y in H1 as [-> | ->];
        apply lower_ascii_e in H2 as [-> | ->];
        apply lower_ascii_s in H3 as [-> | ->]; simpl; tauto.
  - intros H. simpl in H.
    repeat (destruct H as [<- | H]; [reflexivity |]). contradiction.
Qed.

(** ** timesync.py: additions and removals together *)
Section MutationsMore.
Context {TimeFrame : Type}.
Implicit Type TIMEFRAMES : TimeSync.store TimeFrame.

(** X9: removing an id that is present leaves the store without it and
    with every other id as before; the store has one entry less. *)
Theorem remove_timeframe_takes_one TIMEFRAMES timeframe_id :
  Dict.contains timeframe_id TIMEFRAMES = true ->
  exists TIMEFRAMES',
    TimeSync.remove_timeframe TIMEFRAMES timeframe_id
    = (TIMEFRAMES', [TimeSync.removed timeframe_id], true)
    /\ Dict.contains timeframe_id TIMEFRAMES' = false
    /\ (forall other, other <> timeframe_id ->
          Dict.get other TIMEFRAMES' = Dict.get other TIMEFRAMES)
    /\ (Dict.wf TIMEFRAMES -> S (Dict.len TIMEFRAMES') = Dict.len TIMEFRAMES).
Proof.
  intros Hpres. exists (Dict.pop timeframe_id TIMEFRAMES).
  split; [now apply remove_timeframe_present |].
  split; [apply contains_pop |]. split.
  - intros other Hne. now apply get_pop_other.
  - intros Hwf. now apply len_pop_present.
Qed.

Variable TimeFrame_init : string -> datetime -> datetime -> outcome TimeFrame.

Local Abbreviation add_timeframe := (TimeSync.add_timeframe TimeFrame_init).
Local Abbreviation effective_id := TimeSync.effective_id.

(** X6: a timeframe added under an id that is absent is the one looked up
    under the id afterwards; it comes last in the store, and the
    timeframes under the other ids are as before.  No question is asked. *)
Theorem add_timeframe_then_lookup TIMEFRAMES response timeframe_id id
    utc_offset start_time end_time new_timeframe :
  effective_id TIMEFRAMES timeframe_id = id ->
  Dict.contains id TIMEFRAMES = false ->
  TimeFrame_init utc_offset start_time end_time = Return new_timeframe ->
  exists TIMEFRAMES',
    add_timeframe TIMEFRAMES response timeframe_id utc_offset start_time end_time
    = (TIMEFRAMES', [TimeSync.timeframe_added], Return tt)
    /\ Dict.get id TIMEFRAMES' = Some new_timeframe
    /\ (forall other, other <> id ->
          Dict.get other TIMEFRAMES' = Dict.get other TIMEFRAMES)
    /\ Dict.values TIMEFRAMES' = Dict.values TIMEFRAMES ++ [new_timeframe]
    /\ Dict.keys TIMEFRAMES' = Dict.keys TIMEFRAMES ++ [id].
Proof.
  intros Hid Habs Hinit. rewrite <- Hid in Habs.
  rewrite (add_timeframe_fresh _ _ _ _ _ _ _ _ Habs Hinit).
  rewrite Hid in *. eexists. split; [reflexivity |].
  split; [apply get_setitem |]. split; [| split].
  - intros other Hne. now apply get_setitem_other.
  - now apply values_setitem_absent.
  - now apply keys_setitem_absent.
Qed.

(** X7: removing an id right after it was added as a new one gives back
    the store as it was before the addition. *)
Theorem add_then_remove_restores TIMEFRAMES response timeframe_id id
    utc_offset start_time end_time new_timeframe :
  effective_id TIMEFRAMES timeframe_id = id ->
  Dict.contains id TIMEFRAMES = false ->
  TimeFrame_init utc_offset start_time end_time = Return new_timeframe ->
  TimeSync.remove_timeframe
    (fst (fst (add_timeframe TIMEFRAMES response timeframe_id utc_offset
                 start_time end_time)))
    id
  = (TIMEFRAMES, [TimeSync.removed id], true).
Proof.
  intros Hid Habs Hinit. rewrite <- Hid in Habs.
  rewrite (add_timeframe_fresh _ _ _ _ _ _ _ _ Habs Hinit).
  rewrite Hid in *. cbn [fst].
  unfold TimeSync.remove_timeframe.
  assert (Hin : Dict.contains id (Dict.setitem id new_timeframe TIMEFRAMES) = true).
  { apply contains_In. rewrite keys_setitem_absent by assumption.
    apply in_or_app. right. now left. }
  rewrite Hin. simpl. now rewrite pop_setitem_absent.
Qed.

(** X8: overwriting the timeframe of an id that is present, on the answer
    y or yes, keeps the ids and their order, and the timeframes under the
    other ids. *)
Theorem add_timeframe_overwrite_keeps_others TIMEFRAMES response timeframe_id
    id utc_offset start_time end_time new_timeframe :
  effective_id TIMEFRAMES timeframe_id = id ->
  Dict.contains id TIMEFRAMES = true ->
  confirmed response = true ->
  TimeFrame_init utc_offset start_time end_time = Return new_timeframe ->
  exists TIMEFRAMES' printed,
    add_timeframe TIMEFRAMES response timeframe_id utc_offset start_time end_time
    = (TIMEFRAMES', printed, Return tt)
    /\ Dict.keys TIMEFRAMES' = Dict.keys TIMEFRAMES
    /\ Dict.len TIMEFRAMES' = Dict.len TIMEFRAMES
    /\ (forall other, other <> id ->
          Dict.get other TIMEFRAMES' = Dict.get other TIMEFRAMES).
Proof.
  intros Hid Hpres Hconf Hinit. unfold TimeSync.add_timeframe.
  rewrite Hid, Hpres, Hconf, Hinit. simpl.
  eexists; eexists. split; [reflexivity |].
  assert (Hkeys : Dict.keys (Dict.setitem id new_timeframe TIMEFRAMES)
                  = Dict.keys TIMEFRAMES) by now apply keys_setitem_present.
  split; [assumption |]. split.
  - unfold Dict.len. apply (f_equal (@List.length _)) in Hkeys.
    unfold Dict.keys in Hkeys. now rewrite !length_map in Hkeys.
  - intros other Hne. now apply get_setitem_other.
Qed.

End MutationsMore.

(** ** timesync.py: default ids *)

Lemma str_of_int_inj a b : str_of_int a = str_of_int b -> a = b.
Proof.
  unfold str_of_int. intros H.
  assert (Hnice : forall z, Z.to_int z <> Decimal.Pos Decimal.Nil
                            /\ Z.to_int z <> Decimal.Neg Decimal.Nil).
  { intros [| p | p]; simpl; split; try discriminate;
      intros [= E]; now apply DecimalPos.Unsigned.to_uint_nonnil in E. }
  apply (f_equal NilZero.int_of_string) in H.
  rewrite !NilZero.isi in H by apply Hnice.
  injection H as H. now apply DecimalZ.to_int_inj.
Qed.

Local Abbreviation unnamed_id := TimeSync.unnamed_id.

Lemma unnamed_id_inj i j : unnamed_id i = unnamed_id j -> i = j.
Proof.
  unfold TimeSync.unnamed_id. simpl. intros [= H]. apply str_of_int_inj in H. lia.
Qed.

Section DefaultIds.
Context {TimeFrame : Type}.
Variable TimeFrame_init : string -> datetime -> datetime -> outcome TimeFrame.

Lemma add_unnamed_keys calls :
  Forall (fun call : string * string * datetime * datetime =>
            let '(_, utc_offset, start_time, end_time) := call in
            exists timeframe,
              TimeFrame_init utc_offset start_time end_time = Return timeframe)
         calls ->
  forall TIMEFRAMES : TimeSync.store TimeFrame,
    Dict.keys TIMEFRAMES = map unnamed_id (seq 0 (Dict.len TIMEFRAMES)) ->
    Dict.keys (TimeSync.add_unnamed TimeFrame_init TIMEFRAMES calls)
    = map unnamed_id (seq 0 (Dict.len TIMEFRAMES + List.length calls)).
Proof.
  induction 1 as [| [[[response utc_offset] start_time] end_time] calls
                    (timeframe & Hinit) _ IH];
    intros TIMEFRAMES Hkeys.
  - simpl. now rewrite Nat.add_0_r.
  - unfold TimeSync.add_unnamed in *. cbn [fold_left].
    assert (Habs : Dict.contains (TimeSync.effective_id TIMEFRAMES None) TIMEFRAMES
                   = false).
    { destruct (Dict.contains _ TIMEFRAMES) eqn:E; [| reflexivity].
      apply contains_In in E. rewrite Hkeys in E.
      apply in_map_iff in E as (i & Hi & Hin).
      apply unnamed_id_inj in Hi. apply in_seq in Hin. exfalso. lia. }
    rewrite (add_timeframe_fresh _ _ response None _ _ _ _ Habs Hinit).
    cbn [fst]. rewrite IH.
    + rewrite len_setitem_absent by assumption. cbn [List.length].
      f_equal. f_equal. lia.
    + rewrite keys_setitem_absent, len_setitem_absent by assumption.
      rewrite Hkeys, seq_S, map_app. reflexivity.
Qed.

(** X10: timeframes added without an id to the empty store, with no
    removal in between, never meet an id that is taken: the [n] additions
    leave [n] entries, under "Timeframe -1", "Timeframe 0" and so on in
    this order. *)
Theorem add_unnamed_from_empty calls :
  Forall (fun call : string * string * datetime * datetime =>
            let '(_, utc_offset, start_time, end_time) := call in
            exists timeframe,
              TimeFrame_init utc_offset start_time end_time = Return timeframe)
         calls ->
  Dict.keys (TimeSync.add_unnamed TimeFrame_init [] calls)
  = map (fun i => ("Timeframe " ++ str_of_int (Z.of_nat i - 1))%string)
        (seq 0 (List.length calls))
  /\ Dict.len (TimeSync.add_unnamed TimeFrame_init [] calls) = List.length calls
  /\ Dict.wf (TimeSync.add_unnamed TimeFrame_init [] calls).
Proof.
  intros Hcalls.
  assert (Hkeys := add_unnamed_keys calls Hcalls [] eq_refl).
  simpl in Hkeys. split; [exact Hkeys |]. split.
  - apply (f_equal (@List.length _)) in Hkeys.
    unfold Dict.keys, Dict.len in *.
    now rewrite !length_map, length_seq in Hkeys.
  - unfold Dict.wf. rewrite Hkeys.
    apply Finite.Injective_map_NoDup; [| apply seq_NoDup].
    intros i j. apply unnamed_id_inj.
Qed.

End DefaultIds.

(** ** timesync.py: a turn of the loop of [main] *)
Section MainTurn.
Context {TimeFrame : Type}.
Variable TimeFrame_init : string -> datetime -> datetime -> outcome TimeFrame.
Variable get_norm_times : TimeFrame -> datetime * datetime.
Variable strftime : datetime -> string.
Variable construct_timeframe_table : TimeSync.store TimeFrame -> string.
Variable split : string -> list string.
Variable format_utc_offset : string -> TimeSync.formatted.
Variable format_time : string -> TimeSync.formatted.
Variable is_valid_offset : string -> bool * string.
Variable is_valid_datetime : string -> bool.
Variable strptime : string -> option datetime.
Implicit Type TIMEFRAMES : TimeSync.store TimeFrame.

Local Abbreviation main_add :=
  (TimeSync.main_add TimeFrame_init format_utc_offset format_time
     is_valid_offset is_valid_datetime strptime).
Local Abbreviation main_turn :=
  (TimeSync.main_turn TimeFrame_init get_norm_times strftime
     construct_timeframe_table split format_utc_offset format_time
     is_valid_offset is_valid_datetime strptime).

(** What [add_timeframe] can do: leave the store, or assign to its id. *)
Lemma add_timeframe_effect TIMEFRAMES response timeframe_id utc_offset
    start_time end_time :
  let result :=
    TimeSync.add_timeframe TimeFrame_init TIMEFRAMES response timeframe_id
      utc_offset start_time end_time in
  (fst (fst result) = TIMEFRAMES
   /\ (forall e, snd result = Raise e ->
         TimeFrame_init utc_offset start_time end_time = Raise e))
  \/ (exists new_timeframe,
        TimeFrame_init utc_offset start_time end_time = Return new_timeframe
        /\ fst (fst result)
           = Dict.setitem (TimeSync.effective_id TIMEFRAMES timeframe_id)
               new_timeframe TIMEFRAMES
        /\ snd result = Return tt).
Proof.
  unfold TimeSync.add_timeframe. cbv zeta.
  destruct (_ && _)%bool.
  - left. split; [reflexivity | discriminate].
  - destruct (TimeFrame_init utc_offset start_time end_time) as [tf | e0] eqn:E.
    + right. exists tf. repeat split.
    + left. split; [reflexivity |]. now intros e [= <-].
Qed.

(** The same for the [add] branch of [main] after the count of its
    arguments. *)
Lemma main_add_effect TIMEFRAMES response timeframe_id utc_offset start_date
    start_clock end_date end_clock :
  let result :=
    main_add TIMEFRAMES response timeframe_id utc_offset start_date
      start_clock end_date end_clock in
  (fst (fst result) = TIMEFRAMES
   /\ (forall e, snd result = Raise e ->
         exists offset start_time end_time,
           TimeFrame_init offset start_time end_time = Raise e))
  \/ (exists new_timeframe,
        fst (fst result) = Dict.setitem timeframe_id new_timeframe TIMEFRAMES
        /\ snd result = Return tt).
Proof.
  unfold TimeSync.main_add. cbv zeta.
  destruct (format_utc_offset utc_offset) as [offset | ve];
    [| left; split; [reflexivity | discriminate]].
  destruct (format_time start_clock) as [start_text | ve];
    [| left; split; [reflexivity | discriminate]].
  destruct (format_time end_clock) as [end_text | ve];
    [| left; split; [reflexivity | discriminate]].
  destruct (is_valid_offset offset) as [flag error_message].
  destruct (negb flag); [left; split; [reflexivity | discriminate] |].
  destruct (negb (is_valid_datetime _));
    [left; split; [reflexivity | discriminate] |].
  destruct (negb (is_valid_datetime _));
    [left; split; [reflexivity | discriminate] |].
  destruct (strptime _) as [start_time |];
    [| left; split; [reflexivity | discriminate]].
  destruct (strptime _) as [end_time |];
    [| left; split; [reflexivity | discriminate]].
  destruct (add_timeframe_effect TIMEFRAMES response (Some timeframe_id) offset
              start_time end_time) as [[Hsame Hraise] | (tf & _ & Hset & Hret)].
  - left. split; [exact Hsame |]. intros e He. eauto.
  - right. exists tf. split; assumption.
Qed.

(** X11: a turn of the loop changes the store only on the commands [add],
    [remove] and [reset]. *)
Theorem main_turn_changes_store_only_on TIMEFRAMES line response :
  fst (fst (main_turn TIMEFRAMES line response)) <> TIMEFRAMES ->
  exists action arguments,
    split line = action :: arguments
    /\ In action ["add"; "remove"; "reset"].
Proof.
  unfold TimeSync.main_turn.
  destruct (String.eqb line EmptyString); [now intros [] |].
  destruct (split line) as [| action arguments]; [now intros [] |].
  intros H. exists action, arguments. split; [reflexivity |].
  destruct (String.eqb action "add") eqn:Eadd;
    [apply String.eqb_eq in Eadd; subst; simpl; auto |].
  destruct (str_in action ["find"; "run"; "sync"]).
  { destruct (TimeSync.main_find _ _ _) as [printed report]. now destruct H. }
  destruct (String.eqb action "remove") eqn:Eremove;
    [apply String.eqb_eq in Eremove; subst; simpl; auto |].
  destruct (String.eqb action "reset") eqn:Ereset;
    [apply String.eqb_eq in Ereset; subst; simpl; auto |].
  destruct (str_in action ["ls"; "list"]); [now destruct H |].
  destruct (String.eqb action "vis"); [now destruct H |].
  destruct (String.eqb action "clear"); [now destruct H |].
  destruct (String.eqb action "help"); [now destruct H |].
  destruct (str_in action ["X"; "exit"; "quit"]); now destruct H.
Qed.

(** X12: an [add] or a [remove] command changes at most the entry under
    the id that is its first argument, whatever else the line holds: the
    timeframes under the other ids are as before. *)
Theorem main_turn_touches_its_id_only TIMEFRAMES line response action
    timeframe_id arguments :
  split line = action :: timeframe_id :: arguments ->
  In action ["add"; "remove"] ->
  forall other, other <> timeframe_id ->
    Dict.get other (fst (fst (main_turn TIMEFRAMES line response)))
    = Dict.get other TIMEFRAMES.
Proof.
  intros Hsplit Haction other Hne. unfold TimeSync.main_turn.
  destruct (String.eqb line EmptyString); [reflexivity |]. rewrite Hsplit.
  destruct Haction as [<- | [<- | []]]; cbn [String.eqb Ascii.eqb Bool.eqb str_in existsb orb].
  - assert (Hadd : forall start_date start_clock end_date end_clock utc_offset,
               Dict.get other
                 (fst (fst (main_add TIMEFRAMES response timeframe_id utc_offset
                              start_date start_clock end_date end_clock)))
               = Dict.get other TIMEFRAMES).
    { intros. destruct (main_add_effect TIMEFRAMES response timeframe_id
                          utc_offset start_date start_clock end_date end_clock)
        as [[-> _] | (tf & -> & _)]; [reflexivity |].
      now apply get_setitem_other. }
    destruct arguments as [| a1 [| a2 [| a3 [| a4 [| a5 [| a6 rest]]]]]];
      try reflexivity.
    + specialize (Hadd a2 a3 a2 a4 a1).
      destruct (main_add _ _ _ _ _ _ _ _) as [[T' printed] ended]. exact Hadd.
    + specialize (Hadd a2 a3 a4 a5 a1).
      destruct (main_add _ _ _ _ _ _ _ _) as [[T' printed] ended]. exact Hadd.
  - unfold TimeSync.remove_timeframe.
    destruct (negb _); [reflexivity |]. cbn [fst].
    now apply get_pop_other.
Qed.

(** X13: a line of blanks only, which [split] leaves no word of, ends the
    loop with [IndexError] before anything is shown; the empty line is
    skipped. *)
Theorem main_turn_blank_line TIMEFRAMES line response :
  split line = [] ->
  main_turn TIMEFRAMES line response
  = (TIMEFRAMES, [],
     if String.eqb line EmptyString then Return TimeSync.Continue
     else Raise IndexError).
Proof.
  intros Hsplit. unfold TimeSync.main_turn. rewrite Hsplit.
  now destruct (String.eqb line EmptyString).
Qed.

(** X14: an [add] command of six words, without end date, does what the
    command of seven words with the start date repeated as end date
    does. *)
Theorem main_turn_add_without_end_date TIMEFRAMES response line line'
    timeframe_id utc_offset start_date start_clock end_clock :
  line <> EmptyString -> line' <> EmptyString ->
  split line
  = ["add"; timeframe_id; utc_offset; start_date; start_clock; end_clock] ->
  split line'
  = ["add"; timeframe_id; utc_offset; start_date; start_clock; start_date;
     end_clock] ->
  main_turn TIMEFRAMES line response = main_turn TIMEFRAMES line' response.
Proof.
  intros Hline Hline' Hsplit Hsplit'. unfold TimeSync.main_turn.
  apply String.eqb_neq in Hline, Hline'.
  now rewrite Hline, Hline', Hsplit, Hsplit'.
Qed.

(** X15: a turn ends the loop with [break] exactly on the command X, exit
    or quit answered y or yes; the store is then as before. *)
Theorem main_turn_break TIMEFRAMES line response :
  snd (main_turn TIMEFRAMES line response) = Return TimeSync.Break <->
  line <> EmptyString
  /\ (exists action arguments,
        split line = action :: arguments /\ In action ["X"; "exit"; "quit"])
  /\ confirmed response = true
  /\ fst (fst (main_turn TIMEFRAMES line response)) = TIMEFRAMES.
Proof.
  unfold TimeSync.main_turn.
  destruct (String.eqb line EmptyString) eqn:Eline.
  { apply String.eqb_eq in Eline. split; [discriminate | intros [H _]; contradiction]. }
  apply String.eqb_neq in Eline.
  destruct (split line) as [| action arguments].
  { split; [discriminate | intros (_ & (a & l & [=] & _) & _)]. }
  assert (Hquit : str_in action ["X"; "exit"; "quit"] = true
                  <-> In action ["X"; "exit"; "quit"]) by apply str_in_In.
  destruct (String.eqb action "add") eqn:Eadd.
  { apply String.eqb_eq in Eadd. subst action. split.
    - destruct arguments as [| a1 [| a2 [| a3 [| a4 [| a5 [| a6 [| a7 rest]]]]]]];
        try discriminate;
        destruct (TimeSync.main_add _ _ _ _ _ _ _ _ _ _ _ _ _ _)
          as [[T' printed] [[] | e]]; discriminate.
    - intros (_ & (a & l & [= <- _] & Hin) & _).
      simpl in Hin. intuition discriminate. }
  destruct (str_in action ["find"; "run"; "sync"]) eqn:Efind.
  { apply str_in_In in Efind. split.
    - destruct (TimeSync.main_find _ _ _) as [printed [| [r | e]]]; discriminate.
    - intros (_ & (a & l & [= <- _] & Hin) & _).
      simpl in Efind, Hin.
      destruct Efind as [<- | [<- | [<- | []]]]; intuition discriminate. }
  destruct (String.eqb action "remove") eqn:Eremove.
  { apply String.eqb_eq in Eremove. subst action. split.
    - destruct arguments; [discriminate |].
      destruct (TimeSync.remove_timeframe _ _) as [[T' printed] flag]. discriminate.
    - intros (_ & (a & l & [= <- _] & Hin) & _).
      simpl in Hin. intuition discriminate. }
  destruct (String.eqb action "reset") eqn:Ereset.
  { apply String.eqb_eq in Ereset. subst action. split.
    - destruct (TimeSync.reset _ _) as [[T' printed] flag]. discriminate.
    - intros (_ & (a & l & [= <- _] & Hin) & _).
      simpl in Hin. intuition discriminate. }
  destruct (str_in action ["ls"; "list"]) eqn:Els.
  { apply str_in_In in Els. split; [discriminate |].
    intros (_ & (a & l & [= <- _] & Hin) & _). simpl in Els, Hin.
    destruct Els as [<- | [<- | []]]; intuition discriminate. }
  destruct (String.eqb action "vis") eqn:Evis.
  { apply String.eqb_eq in Evis. subst action. split; [discriminate |].
    intros (_ & (a & l & [= <- _] & Hin) & _). simpl in Hin. intuition discriminate. }
  destruct (String.eqb action "clear") eqn:Eclear.
  { apply String.eqb_eq in Eclear. subst action. split; [discriminate |].
    intros (_ & (a & l & [= <- _] & Hin) & _). simpl in Hin. intuition discriminate. }
  destruct (String.eqb action "help") eqn:Ehelp.
  { apply String.eqb_eq in Ehelp. subst action. split; [discriminate |].
    intros (_ & (a & l & [= <- _] & Hin) & _). simpl in Hin. intuition discriminate. }
  destruct (str_in action ["X"; "exit"; "quit"]) eqn:Equit.
  - cbn [fst snd]. split.
    + destruct (confirmed response); [| discriminate]. intros _.
      repeat split; try assumption. exists action, arguments.
      split; [reflexivity | now apply Hquit].
    + intros (_ & _ & -> & _). reflexivity.
  - split; [discriminate |].
    intros (_ & (a & l & [= <- _] & Hin) & _). apply Hquit in Hin. discriminate.
Qed.

(** X16: a turn raises only on a line of blanks, with [IndexError], or
    with what the constructor of [TimeFrame] raises in an [add]; the
    [find] branch never raises. *)
Theorem main_turn_raises_only TIMEFRAMES line response e :
  snd (main_turn TIMEFRAMES line response) = Raise e ->
  (split line = [] /\ e = IndexError)
  \/ (exists arguments utc_offset start_time end_time,
        split line = "add" :: arguments
        /\ TimeFrame_init utc_offset start_time end_time = Raise e).
Proof.
  unfold TimeSync.main_turn.
  destruct (String.eqb line EmptyString); [discriminate |].
  destruct (split line) as [| action arguments];
    [intros [= <-]; now left |].
  destruct (String.eqb action "add") eqn:Eadd.
  { apply String.eqb_eq in Eadd. subst action. intros H. right.
    exists arguments.
    assert (Hadd : forall timeframe_id utc_offset start_date start_clock
                          end_date end_clock,
               snd (main_add TIMEFRAMES response timeframe_id utc_offset
                      start_date start_clock end_date end_clock) = Raise e ->
               exists offset start_time end_time,
                 TimeFrame_init offset start_time end_time = Raise e).
    { intros. destruct (main_add_effect TIMEFRAMES response timeframe_id
                          utc_offset start_date start_clock end_date end_clock)
        as [[_ Hraise] | (tf & _ & Hret)]; [now apply Hraise | congruence]. }
    destruct arguments as [| a1 [| a2 [| a3 [| a4 [| a5 [| a6 [| a7 rest]]]]]]];
      try discriminate H.
    - specialize (Hadd a1 a2 a3 a4 a3 a5).
      destruct (TimeSync.main_add _ _ _ _ _ _ _ _ _ _ _ _ _ _)
        as [[T' printed] [[] | e']]; [discriminate H |].
      cbn [snd] in *. injection H as ->.
      destruct (Hadd eq_refl) as (o & s & en & Hinit).
      exists o, s, en. split; [reflexivity | assumption].
    - specialize (Hadd a1 a2 a3 a4 a5 a6).
      destruct (TimeSync.main_add _ _ _ _ _ _ _ _ _ _ _ _ _ _)
        as [[T' printed] [[] | e']]; [discriminate H |].
      cbn [snd] in *. injection H as ->.
      destruct (Hadd eq_refl) as (o & s & en & Hinit).
      exists o, s, en. split; [reflexivity | assumption]. }
  destruct (str_in action ["find"; "run"; "sync"]).
  { unfold TimeSync.main_find.
    destruct (Nat.leb_spec (Dict.len TIMEFRAMES) 1); [discriminate |].
    destruct (main_find_searches get_norm_times strftime TIMEFRAMES)
      as (shared & Hfind & _); [lia |].
    rewrite Hfind. destruct shared as [[s en] |]; discriminate. }
  destruct (String.eqb action "remove").
  { destruct arguments; [discriminate |].
    destruct (TimeSync.remove_timeframe _ _) as [[T' printed] flag]. discriminate. }
  destruct (String.eqb action "reset").
  { destruct (TimeSync.reset _ _) as [[T' printed] flag]. discriminate. }
  destruct (str_in action ["ls"; "list"]); [discriminate |].
  destruct (String.eqb action "vis"); [discriminate |].
  destruct (String.eqb action "clear"); [discriminate |].
  destruct (String.eqb action "help"); [discriminate |].
  destruct (str_in action ["X"; "exit"; "quit"]); discriminate.
Qed.

End MainTurn.

(** ** common_time.py: the states of a session *)
Section Session.
Variable date_today : datetime.
Variable convertToUTC : string -> datetime -> datetime.
Variable strftime : string -> datetime -> string.

Local Abbreviation reachable := (CommonTime.reachable date_today convertToUTC).
Local Abbreviation run := (CommonTime.run strftime).

(** What [add] returns, whatever the conversion answers. *)
Lemma add_returns st location time_stamps st' :
  CommonTime.add date_today convertToUTC st location time_stamps = Return st' ->
  exists utcStart utcEnd,
    st' = {| CommonTime.startTimes := CommonTime.startTimes st ++ [utcStart];
             CommonTime.endTimes := CommonTime.endTimes st ++ [utcEnd];
             CommonTime.limit_count := CommonTime.limit_count st + 1 |}
    /\ CommonTime.valid_stamp (fst time_stamps) = true
    /\ CommonTime.valid_stamp (snd time_stamps) = true.
Proof.
  unfold CommonTime.add, CommonTime.strptime_today.
  destruct (CommonTime.valid_stamp (fst time_stamps)); [| discriminate].
  destruct (CommonTime.valid_stamp (snd time_stamps)); [| discriminate].
  destruct (_ <? _); intros [= <-]; eexists; eexists; repeat split.
Qed.

(** X17: in every state of a session the two lists have the same length,
    and [limit_count] is this length. *)
Theorem reachable_counts st :
  reachable st ->
  List.length (CommonTime.startTimes st) = List.length (CommonTime.endTimes st)
  /\ CommonTime.limit_count st = Z.of_nat (List.length (CommonTime.startTimes st)).
Proof.
  induction 1 as [| st location time_stamps st' _ [IHlen IHcount] Hadd | st _ _].
  - split; reflexivity.
  - apply add_returns in Hadd as (us & ue & -> & _). simpl.
    rewrite !length_app. simpl. split; lia.
  - split; reflexivity.
Qed.

(** X18: [run] reports that there is no common time frame exactly when the
    latest end of all timeframes is not after the earliest start of all;
    in every other case it raises [AttributeError] after its first two
    lines, so it never shows a common time frame. *)
Theorem run_reports_or_raises st first_start starts first_end ends :
  CommonTime.startTimes st = first_start :: starts ->
  CommonTime.endTimes st = first_end :: ends ->
  exists earliestStart latestEnd,
    earliest earliestStart (CommonTime.startTimes st)
    /\ latest latestEnd (CommonTime.endTimes st)
    /\ run st
       = if earliestStart <? latestEnd
         then ([strftime CommonTime.dt_format first_start;
                strftime CommonTime.dt_format first_end],
               Raise AttributeError)
         else ([strftime CommonTime.dt_format first_start;
                strftime CommonTime.dt_format first_end;
                CommonTime.no_common],
               Return tt).
Proof.
  intros Es Ee.
  exists (CommonTime.op_startTime st first_start),
         (CommonTime.op_endTime st first_end).
  split; [now apply (op_startTime_earliest st first_start starts) |].
  split; [now apply (op_endTime_latest st first_end ends) |].
  unfold CommonTime.run. rewrite Es, Ee.
  now destruct (_ <? _).
Qed.

Variable utc_offset : string -> timedelta.
Hypothesis convertToUTC_shift :
  forall location local, convertToUTC location local = local - utc_offset location.

(** X19: with a conversion that shifts by the offset of the location, the
    window [add] stores is longer than nothing and not longer than 24
    hours; it is 24 hours long exactly when the two time stamps are the
    same. *)
Theorem add_window_length st location start_stamp end_stamp :
  CommonTime.valid_stamp start_stamp = true ->
  CommonTime.valid_stamp end_stamp = true ->
  exists utcStart utcEnd,
    CommonTime.add date_today convertToUTC st location (start_stamp, end_stamp)
    = Return {| CommonTime.startTimes := CommonTime.startTimes st ++ [utcStart];
                CommonTime.endTimes := CommonTime.endTimes st ++ [utcEnd];
                CommonTime.limit_count := CommonTime.limit_count st + 1 |}
    /\ 0 < utcEnd - utcStart <= 1440
    /\ (utcEnd - utcStart = 1440 <-> start_stamp = end_stamp).
Proof.
  intros Hs He.
  rewrite (add_valid date_today convertToUTC utc_offset convertToUTC_shift
             st location _ _ Hs He).
  eexists; eexists. split; [reflexivity |].
  apply valid_stamp_bounds in Hs, He.
  destruct start_stamp as [h m], end_stamp as [h' m'].
  unfold CommonTime.local_time. simpl in Hs, He.
  destruct (Z.ltb_spec (date_today + 60 * h + m) (date_today + 60 * h' + m')).
  - split; [lia |]. split; [lia | intros [= -> ->]; lia].
  - split; [lia |]. split; [intros Heq; f_equal; lia | intros [= -> ->]; lia].
Qed.

(** In every state of a session each timeframe starts before it ends. *)
Lemma reachable_windows st :
  reachable st ->
  Forall2 Z.lt (CommonTime.startTimes st) (CommonTime.endTimes st).
Proof.
  induction 1 as [| st location [start_stamp end_stamp] st' _ IH Hadd | st _ _].
  - constructor.
  - destruct (add_returns _ _ _ _ Hadd) as (_ & _ & _ & Hs & He).
    simpl in Hs, He.
    rewrite (add_valid date_today convertToUTC utc_offset convertToUTC_shift
               st location _ _ Hs He) in Hadd.
    injection Hadd as <-. simpl.
    apply Forall2_app; [assumption |]. repeat constructor.
    apply valid_stamp_bounds in Hs, He.
    destruct start_stamp as [h m], end_stamp as [h' m'].
    unfold CommonTime.local_time. simpl in Hs, He.
    destruct (Z.ltb_spec (date_today + 60 * h + m) (date_today + 60 * h' + m'));
      lia.
  - constructor.
Qed.

(** X20: in no state of a session does [run] come to its end: it raises
    [IndexError] when there is no timeframe and [AttributeError] when there
    is one or more. *)
Theorem run_always_raises st :
  reachable st ->
  (CommonTime.startTimes st = [] /\ run st = ([], Raise IndexError))
  \/ (exists printed, run st = (printed, Raise AttributeError)).
Proof.
  intros Hreach. assert (Hwin := reachable_windows st Hreach).
  unfold CommonTime.run.
  destruct (CommonTime.startTimes st) as [| s0 starts] eqn:Es;
    [left; now split |].
  destruct (CommonTime.endTimes st) as [| e0 ends] eqn:Ee;
    [inversion Hwin |].
  right. inversion Hwin as [| ? ? ? ? Hlt _]; subst.
  destruct (op_startTime_earliest st s0 starts Es) as [_ Hs].
  destruct (op_endTime_latest st e0 ends Ee) as [_ He].
  rewrite Es in Hs. rewrite Ee in He.
  apply Forall_inv in Hs, He.
  destruct (Z.ltb_spec (CommonTime.op_startTime st s0) (CommonTime.op_endTime st e0));
    [eexists; reflexivity | lia].
Qed.

End Session.

(** ** common_time.py: the rows of [vis] in full *)

Lemma half_hours_unique reference bound (n : nat) :
  bound <= reference + 30 * Z.of_nat n ->
  (forall j : nat, (j < n)%nat -> reference + 30 * Z.of_nat j < bound) ->
  n = CommonTime.half_hours reference bound.
Proof.
  intros Hend Hbefore. unfold CommonTime.half_hours.
  destruct n as [| m].
  - assert ((bound - reference + 29) / 30 <= 0)
      by (apply Z.lt_succ_r, Z.div_lt_upper_bound; lia).
    lia.
  - specialize (Hbefore m ltac:(lia)).
    assert ((bound - reference + 29) / 30 = Z.of_nat (S m)).
    { symmetry. apply (Z.div_unique _ _ _ (bound - reference + 29 - 30 * Z.of_nat (S m))); lia. }
    lia.
Qed.

(** A loop of [advance] makes [half_hours] turns. *)
Lemma advance_turns mark bound c :
  CommonTime.advance mark bound c
  = let n := CommonTime.half_hours (CommonTime.reference_datetime c) bound in
    {| CommonTime.output := (CommonTime.output c ++ rep mark n)%string;
       CommonTime.reference_datetime :=
         CommonTime.reference_datetime c + 30 * Z.of_nat n;
       CommonTime.increment_counter :=
         CommonTime.increment_counter c + Z.of_nat n |}.
Proof.
  destruct (advance_shape mark bound c) as (n & -> & Hend & Hbefore).
  cbv zeta. now rewrite <- (half_hours_unique _ _ n Hend Hbefore).
Qed.

(** The loop of [fill] brings the counter up to 49 and no further. *)
Lemma fill_turns c :
  CommonTime.fill c
  = let n := Z.to_nat (49 - CommonTime.increment_counter c) in
    {| CommonTime.output := (CommonTime.output c ++ rep "|" n)%string;
       CommonTime.reference_datetime :=
         CommonTime.reference_datetime c + 30 * Z.of_nat n;
       CommonTime.increment_counter :=
         Z.max (CommonTime.increment_counter c) 49 |}.
Proof.
  funelim (CommonTime.fill c).
  - clear Heqcall.
    match goal with IH : CommonTime.fill _ = _ |- _ => rewrite IH end.
    cbv zeta. unfold CommonTime.tick.
    cbn [CommonTime.output CommonTime.reference_datetime
         CommonTime.increment_counter].
    replace (Z.to_nat (49 - CommonTime.increment_counter c))
      with (S (Z.to_nat (49 - (CommonTime.increment_counter c + 1)))) by lia.
    cbn [rep]. rewrite append_assoc. f_equal; lia.
  - cbv zeta.
    replace (Z.to_nat (49 - CommonTime.increment_counter c)) with O by lia.
    simpl. rewrite append_nil_r. destruct c; simpl in *. f_equal; lia.
Qed.

(** A row in full: the bare row, then bars up to a counter of 49. *)
Lemma row_in_full origin startTime endTime counter :
  let bars := CommonTime.half_hours origin startTime in
  let blanks := CommonTime.half_hours (origin + 30 * Z.of_nat bars) endTime in
  let written := counter + Z.of_nat bars + Z.of_nat blanks in
  CommonTime.output (CommonTime.row origin startTime endTime counter)
  = (CommonTime.bare_row origin startTime endTime
     ++ rep "|" (Z.to_nat (49 - written)))%string
  /\ CommonTime.increment_counter (CommonTime.row origin startTime endTime counter)
     = Z.max written 49.
Proof.
  unfold CommonTime.row, CommonTime.bare_row.
  rewrite fill_turns, !advance_turns. cbv zeta.
  cbn [CommonTime.output CommonTime.reference_datetime
       CommonTime.increment_counter].
  rewrite !append_assoc. split; reflexivity.
Qed.

(** Once the counter has reached 49, the loop writes bare rows. *)
Lemma vis_loop_bare st origin :
  nth_error (CommonTime.startTimes st) 0 = Some origin ->
  List.length (CommonTime.startTimes st) = List.length (CommonTime.endTimes st) ->
  forall ns counter rows,
    49 <= counter ->
    Forall (fun n => (n < List.length (CommonTime.startTimes st))%nat) ns ->
    exists rows',
      CommonTime.vis_loop st ns counter rows = (rows ++ rows', Return tt)
      /\ Forall2
           (fun n r => exists startTime endTime,
              nth_error (CommonTime.startTimes st) n = Some startTime
              /\ nth_error (CommonTime.endTimes st) n = Some endTime
              /\ r = CommonTime.bare_row origin startTime endTime)
           ns rows'.
Proof.
  intros Horigin Hlen ns.
  induction ns as [| n ns IH]; intros counter rows Hcounter Hns.
  - exists []. simpl. rewrite app_nil_r. split; constructor.
  - inversion Hns as [| ? ? Hn Hns']; subst.
    destruct (nth_error (CommonTime.startTimes st) n) as [startTime |] eqn:Es;
      [| apply nth_error_None in Es; lia].
    destruct (nth_error (CommonTime.endTimes st) n) as [endTime |] eqn:Ee;
      [| apply nth_error_None in Ee; lia].
    cbn [CommonTime.vis_loop]. rewrite Horigin, Es, Ee.
    destruct (row_in_full origin startTime endTime counter) as [Hout Hcount].
    cbv zeta in Hout, Hcount. rewrite Hout, Hcount.
    match type of Hout with
    | _ = (_ ++ rep "|" (Z.to_nat ?z))%string =>
        replace (Z.to_nat z) with O by lia
    end.
    cbn [rep]. rewrite append_nil_r.
    match goal with
    | |- context [CommonTime.vis_loop st ns ?c ?r] =>
        destruct (IH c r ltac:(lia) Hns') as (rows' & -> & Hrows')
    end.
    eexists (_ :: rows'). rewrite <- app_assoc. split; [reflexivity |].
    constructor; [| assumption]. now exists startTime, endTime.
Qed.

(** X21: with lists of the same length, [vis] pads only its first row.
    The first row is a blank for every half hour of the first timeframe,
    then bars up to 49 characters in all; the row of every later timeframe
    is bare, bars up to its start and blanks up to its end, because the
    counter of the padding loop is not set back for a new row. *)
Theorem vis_pads_first_row_only st origin starts first_end ends :
  CommonTime.startTimes st = origin :: starts ->
  CommonTime.endTimes st = first_end :: ends ->
  List.length starts = List.length ends ->
  exists rows,
    CommonTime.vis st
    = ((rep " " (CommonTime.half_hours origin first_end)
        ++ rep "|" (49 - CommonTime.half_hours origin first_end))%string
       :: rows,
       Return tt)
    /\ List.length rows = List.length starts
    /\ forall n startTime endTime r,
         nth_error starts n = Some startTime ->
         nth_error ends n = Some endTime ->
         nth_error rows n = Some r ->
         r = CommonTime.bare_row origin startTime endTime.
Proof.
  intros Es Ee Hlen.
  assert (Horigin : nth_error (CommonTime.startTimes st) 0 = Some origin)
    by now rewrite Es.
  assert (Hlens : List.length (CommonTime.startTimes st)
                  = List.length (CommonTime.endTimes st))
    by (rewrite Es, Ee; simpl; now rewrite Hlen).
  unfold CommonTime.vis.
  replace (List.length (CommonTime.startTimes st)) with (S (List.length starts))
    by now rewrite Es.
  cbn [seq].
  cbn [CommonTime.vis_loop]. rewrite Horigin, Ee. cbn [nth_error].
  assert (Hfirst :
            CommonTime.output (CommonTime.row origin origin first_end 0)
            = (rep " " (CommonTime.half_hours origin first_end)
               ++ rep "|" (49 - CommonTime.half_hours origin first_end))%string
            /\ 49 <= CommonTime.increment_counter
                       (CommonTime.row origin origin first_end 0)).
  { destruct (row_in_full origin origin first_end 0) as [Hout Hcount].
    cbv zeta in Hout, Hcount. rewrite Hout, Hcount.
    assert (Hzero : CommonTime.half_hours origin origin = O)
      by (unfold CommonTime.half_hours; now rewrite Z.sub_diag).
    unfold CommonTime.bare_row. cbv zeta. rewrite Hzero.
    cbn [rep Z.of_nat]. replace (origin + 30 * 0) with origin by lia.
    split; [| lia]. cbn [append]. f_equal. f_equal. lia. }
  destruct Hfirst as [-> Hcounter].
  match goal with
  | |- context [CommonTime.vis_loop st ?ns ?c ?r] =>
      destruct (vis_loop_bare st origin Horigin Hlens ns c r Hcounter)
        as (rows & -> & Hrows)
  end.
  { apply Forall_forall. intros n Hn. apply in_seq in Hn. rewrite Es. simpl. lia. }
  exists rows. split; [reflexivity |]. split.
  - apply Forall2_length in Hrows. now rewrite length_seq in Hrows.
  - intros n startTime endTime r Hs He Hr.
    assert (Hn : nth_error (seq 1 (List.length starts)) n = Some (S n)).
    { rewrite nth_error_seq.
      destruct (Nat.ltb_spec n (List.length starts)); [reflexivity |].
      assert (nth_error starts n = None) by now apply nth_error_None.
      congruence. }
    destruct (Forall2_nth_error _ _ _ Hrows n (S n) r Hn Hr)
      as (s' & e' & Hs' & He' & ->).
    rewrite Es in Hs'. rewrite Ee in He'. cbn [nth_error] in Hs', He'.
    congruence.
Qed.

(** ** Further worked examples *)
Module MoreExamples.
Import Samples.

Local Abbreviation find := (TimeSync.find_shared_timeframe Window.get_norm_times).
Local Abbreviation add_timeframe := (TimeSync.add_timeframe Window.init).
Local Abbreviation norm_start :=
  (fun timeframe => fst (Window.get_norm_times timeframe)).
Local Abbreviation norm_end :=
  (fun timeframe => snd (Window.get_norm_times timeframe)).

(** X1 at A and B: their shared timeframe 10:00-17:00 lies in both. *)
Lemma largest_common_A_B :
  Window.at_ 10 0 <= Window.at_ 17 0
  /\ (forall timeframe, In timeframe (Dict.values [("A", A); ("B", B)]) ->
        norm_start timeframe <= Window.at_ 10 0
        /\ Window.at_ 17 0 <= norm_end timeframe)
  /\ (forall a b,
        (forall timeframe, In timeframe (Dict.values [("A", A); ("B", B)]) ->
           norm_start timeframe <= a /\ b <= norm_end timeframe) ->
        Window.at_ 10 0 <= a /\ b <= Window.at_ 17 0).
Proof.
  exact (find_shared_timeframe_largest_common Window.get_norm_times
           [("A", A); ("B", B)] (Window.at_ 10 0) (Window.at_ 17 0) eq_refl).
Defined.

(** X2 at D and E, neither of them inverted: E starts after D ends, they
    are different, and the result is [None]. *)
Lemma none_iff_apart_D_E : find [("D", D); ("E", E)] = Return None.
Proof.
  apply (proj2 (proj2 (find_shared_timeframe_none_iff_apart
                         Window.get_norm_times [("D", D); ("E", E)])
                  ltac:(intros timeframe [<- | [<- | []]]; vm_compute; discriminate))).
  exists E, D. simpl. repeat split; auto. discriminate.
Defined.

(** X3 at A and B stored in the two orders. *)
Lemma permutation_A_B :
  find [("A", A); ("B", B)] = find [("B", B); ("A", A)].
Proof.
  apply (find_shared_timeframe_permutation Window.get_norm_times).
  apply perm_swap.
Defined.

(** X4 at a store of A alone: the function returns the times of A. *)
Lemma without_guard_A :
  find [("A", A)] = Return (Some (Window.at_ 9 0, Window.at_ 17 0)).
Proof.
  apply (proj2 (find_shared_timeframe_without_guard Window.get_norm_times
                  [("A", A)])).
  - discriminate.
  - intros timeframe [<- | []]. reflexivity.
  - vm_compute. discriminate.
Defined.

(** X5 at the answer YeS. *)
Lemma confirmed_YeS : confirmed "YeS" = true.
Proof.
  apply (proj2 (confirmed_answers "YeS")). simpl. tauto.
Defined.

(** X6 at the id B, added to a store that holds A. *)
Lemma then_lookup_B :
  exists TIMEFRAMES',
    add_timeframe [("A", A)] "n" (Some "B") "+00:00" (fst B) (snd B)
    = (TIMEFRAMES', [TimeSync.timeframe_added], Return tt)
    /\ Dict.get "B" TIMEFRAMES' = Some B
    /\ (forall other, other <> "B" ->
          Dict.get other TIMEFRAMES' = Dict.get other [("A", A)])
    /\ Dict.values TIMEFRAMES' = Dict.values [("A", A)] ++ [B]
    /\ Dict.keys TIMEFRAMES' = Dict.keys [("A", A)] ++ ["B"].
Proof.
  exact (add_timeframe_then_lookup Window.init [("A", A)] "n" (Some "B") "B"
           "+00:00" (fst B) (snd B) B eq_refl eq_refl eq_refl).
Defined.

(** X7 at the same addition. *)
Lemma add_then_remove_B :
  TimeSync.remove_timeframe
    (fst (fst (add_timeframe [("A", A)] "n" (Some "B") "+00:00" (fst B) (snd B))))
    "B"
  = ([("A", A)], [TimeSync.removed "B"], true).
Proof.
  exact (add_then_remove_restores Window.init [("A", A)] "n" (Some "B") "B"
           "+00:00" (fst B) (snd B) B eq_refl eq_refl eq_refl).
Defined.

(** X8 at the id A, overwritten by D in a store of A and B. *)
Lemma overwrite_A :
  exists TIMEFRAMES' printed,
    add_timeframe [("A", A); ("B", B)] "y" (Some "A") "+00:00" (fst D) (snd D)
    = (TIMEFRAMES', printed, Return tt)
    /\ Dict.keys TIMEFRAMES' = Dict.keys [("A", A); ("B", B)]
    /\ Dict.len TIMEFRAMES' = Dict.len [("A", A); ("B", B)]
    /\ (forall other, other <> "A" ->
          Dict.get other TIMEFRAMES' = Dict.get other [("A", A); ("B", B)]).
Proof.
  exact (add_timeframe_overwrite_keeps_others Window.init [("A", A); ("B", B)]
           "y" (Some "A") "A" "+00:00" (fst D) (snd D) D
           eq_refl eq_refl eq_refl eq_refl).
Defined.

(** X9 at the id A in a store of A and B. *)
Lemma takes_one_A :
  exists TIMEFRAMES',
    TimeSync.remove_timeframe [("A", A); ("B", B)] "A"
    = (TIMEFRAMES', [TimeSync.removed "A"], true)
    /\ Dict.contains "A" TIMEFRAMES' = false
    /\ (forall other, other <> "A" ->
          Dict.get other TIMEFRAMES' = Dict.get other [("A", A); ("B", B)])
    /\ (Dict.wf [("A", A); ("B", B)] ->
        S (Dict.len TIMEFRAMES') = Dict.len [("A", A); ("B", B)]).
Proof.
  exact (remove_timeframe_takes_one [("A", A); ("B", B)] "A" eq_refl).
Defined.

(** X10 at two additions without an id. *)
Lemma unnamed_twice :
  Dict.keys (TimeSync.add_unnamed Window.init [] two_calls)
  = map (fun i => ("Timeframe " ++ str_of_int (Z.of_nat i - 1))%string)
        (seq 0 (List.length two_calls))
  /\ Dict.len (TimeSync.add_unnamed Window.init [] two_calls)
     = List.length two_calls
  /\ Dict.wf (TimeSync.add_unnamed Window.init [] two_calls).
Proof.
  apply (add_unnamed_from_empty Window.init).
  repeat constructor; eexists; reflexivity.
Defined.

(** X11 at an [add] command that stores a timeframe. *)
Lemma changes_store_on_add :
  exists action arguments,
    split "add A +00:00 01-01-26 09:00 17:00" = action :: arguments
    /\ In action ["add"; "remove"; "reset"].
Proof.
  apply (main_turn_changes_store_only_on Window.init Window.get_norm_times
           minutes table split as_it_is as_it_is every_offset every_datetime
           strptime [] "add A +00:00 01-01-26 09:00 17:00" "n").
  vm_compute. discriminate.
Defined.

(** X12 at a [remove] command with a word too many: B is kept. *)
Lemma touches_its_id_only_remove :
  Dict.get "B" (fst (fst (main_turn [("A", A); ("B", B)] "remove A B" "n")))
  = Dict.get "B" [("A", A); ("B", B)].
Proof.
  apply (main_turn_touches_its_id_only Window.init Window.get_norm_times
           minutes table split as_it_is as_it_is every_offset every_datetime
           strptime [("A", A); ("B", B)] "remove A B" "n" "remove" "A" ["B"]).
  - reflexivity.
  - simpl. tauto.
  - discriminate.
Defined.

(** X13 at a line of three blanks. *)
Lemma blank_line_raises :
  main_turn [("A", A)] "   " "n" = ([("A", A)], [], Raise IndexError).
Proof.
  exact (main_turn_blank_line Window.init Window.get_norm_times minutes table
           split as_it_is as_it_is every_offset every_datetime strptime
           [("A", A)] "   " "n" eq_refl).
Defined.

(** X14 at an addition from 09:00 to 17:00 of one day. *)
Lemma add_without_end_date_A :
  main_turn [] "add A +00:00 01-01-26 09:00 17:00" "n"
  = main_turn [] "add A +00:00 01-01-26 09:00 01-01-26 17:00" "n".
Proof.
  apply (main_turn_add_without_end_date Window.init Window.get_norm_times
           minutes table split as_it_is as_it_is every_offset every_datetime
           strptime [] "n" _ _ "A" "+00:00" "01-01-26" "09:00" "17:00").
  - discriminate.
  - discriminate.
  - reflexivity.
  - reflexivity.
Defined.

(** X15 at the command quit answered yes. *)
Lemma break_on_quit :
  snd (main_turn [("A", A)] "quit" "yes") = Return TimeSync.Break.
Proof.
  apply (proj2 (main_turn_break Window.init Window.get_norm_times minutes table
                  split as_it_is as_it_is every_offset every_datetime strptime
                  [("A", A)] "quit" "yes")).
  split; [discriminate |]. split; [| split; reflexivity].
  exists "quit", []. split; [reflexivity | simpl; tauto].
Defined.

(** X16 at a line of three blanks. *)
Lemma raises_only_blank :
  (split "   " = [] /\ IndexError = IndexError)
  \/ (exists arguments utc_offset start_time end_time,
        split "   " = "add" :: arguments
        /\ Window.init utc_offset start_time end_time = Raise IndexError).
Proof.
  exact (main_turn_raises_only Window.init Window.get_norm_times minutes table
           split as_it_is as_it_is every_offset every_datetime strptime
           [("A", A)] "   " "n" IndexError eq_refl).
Defined.

(** The state of the overnight window 22:00-06:00 is a state of a
    session. *)
Lemma overnight_reachable : CommonTime.reachable 0 convertToUTC overnight.
Proof.
  apply (CommonTime.reachable_add 0 convertToUTC CommonTime.initial "X,Y"
           ((22, 0), (6, 0)) overnight).
  - apply CommonTime.reachable_initial.
  - reflexivity.
Defined.

(** X17 at this state. *)
Lemma counts_overnight :
  List.length (CommonTime.startTimes overnight)
  = List.length (CommonTime.endTimes overnight)
  /\ CommonTime.limit_count overnight
     = Z.of_nat (List.length (CommonTime.startTimes overnight)).
Proof.
  exact (reachable_counts 0 convertToUTC overnight overnight_reachable).
Defined.

(** X18 at the lists of A and B. *)
Lemma reports_or_raises_A_B :
  exists earliestStart latestEnd,
    earliest earliestStart (CommonTime.startTimes AB_state)
    /\ latest latestEnd (CommonTime.endTimes AB_state)
    /\ CommonTime.run (fun _ => minutes) AB_state
       = if earliestStart <? latestEnd
         then ([minutes (Window.at_ 9 0); minutes (Window.at_ 17 0)],
               Raise AttributeError)
         else ([minutes (Window.at_ 9 0); minutes (Window.at_ 17 0);
                CommonTime.no_common],
               Return tt).
Proof.
  exact (run_reports_or_raises (fun _ => minutes) AB_state (Window.at_ 9 0)
           [Window.at_ 10 0] (Window.at_ 17 0) [Window.at_ 18 0]
           eq_refl eq_refl).
Defined.

(** X19 at two time stamps that are the same, 09:00 and 09:00. *)
Lemma window_length_same_stamps :
  exists utcStart utcEnd,
    CommonTime.add 0 convertToUTC empty_state "X,Y" ((9, 0), (9, 0))
    = Return {| CommonTime.startTimes := [utcStart];
                CommonTime.endTimes := [utcEnd];
                CommonTime.limit_count := 1 |}
    /\ 0 < utcEnd - utcStart <= 1440
    /\ (utcEnd - utcStart = 1440 <-> (9, 0) = (9, 0)).
Proof.
  exact (add_window_length 0 convertToUTC five_behind (fun _ _ => eq_refl)
           empty_state "X,Y" (9, 0) (9, 0) eq_refl eq_refl).
Defined.

(** X20 at the state of the overnight window. *)
Lemma always_raises_overnight :
  (CommonTime.startTimes overnight = []
   /\ CommonTime.run (fun _ => minutes) overnight = ([], Raise IndexError))
  \/ (exists printed,
        CommonTime.run (fun _ => minutes) overnight
        = (printed, Raise AttributeError)).
Proof.
  exact (run_always_raises 0 convertToUTC (fun _ => minutes) five_behind
           (fun _ _ => eq_refl) overnight overnight_reachable).
Defined.

(** X21 at the lists of A and B. *)
Lemma pads_first_row_only_A_B :
  exists rows,
    CommonTime.vis AB_state
    = ((rep " " (CommonTime.half_hours (Window.at_ 9 0) (Window.at_ 17 0))
        ++ rep "|" (49 - CommonTime.half_hours (Window.at_ 9 0) (Window.at_ 17 0)))%string
       :: rows,
       Return tt)
    /\ List.length rows = List.length [Window.at_ 10 0]
    /\ forall n startTime endTime r,
         nth_error [Window.at_ 10 0] n = Some startTime ->
         nth_error [Window.at_ 18 0] n = Some endTime ->
         nth_error rows n = Some r ->
         r = CommonTime.bare_row (Window.at_ 9 0) startTime endTime.
Proof.
  exact (vis_pads_first_row_only AB_state (Window.at_ 9 0) [Window.at_ 10 0]
           (Window.at_ 17 0) [Window.at_ 18 0] eq_refl eq_refl eq_refl).
Defined.

End MoreExamples.
